(** * SneakPeak catalog engine: search filter, trending selection, detail lookup

    A shallow embedding of [src/main.py]: [load_mock], [filter_sneakers],
    [trending], [sneaker_detail], the routes that call them, [list_designs]
    and [list_alerts], with the properties of the catalog search and
    ranking engine and of the document routes proved about them.

    Modelling conventions.
    - A catalog entry is a Python [dict] decoded from JSON.  The keys the
      code reads are record fields of type [option _]; [None] is "key
      absent", the case every [.get] of the source defaults.  All other
      keys travel in [extra] and are never inspected.
    - A Python [str] is the [string] of its UTF-8 bytes.  [str.lower] and
      [str.upper] are the full case mappings of Unicode, with the rule for
      the final sigma, as CPython applies them; [<] on [str] is the order
      of the code points, which is the order of the bytes
      ([String.compare]).
    - Prices are exact rationals ([Q]); the order on finite JSON numbers
      is the order on the rationals they denote.
    - A Python exception is a value of [exn]; code that may raise returns
      [result]. *)

From Stdlib Require Import Ascii String QArith.
From stdpp Require Import base option list sorting gmap strings.

Local Open Scope string_scope.
Local Open Scope list_scope.

(** ** Exceptions and results *)

Inductive exn : Type :=
| KeyError (key : string)
| HTTPException (status_code : Z) (detail : string)
| OSError (filename : string)
| JSONDecodeError.

Inductive result (A : Type) : Type :=
| Ok (a : A)
| Raise (e : exn).
Arguments Ok {A} a.
Arguments Raise {A} e.

#[global] Instance result_ret : MRet result := fun _ a => Ok a.
#[global] Instance result_bind : MBind result := fun _ _ f m =>
  match m with
  | Ok a => f a
  | Raise e => Raise e
  end.

(** [try: m except Exception: h] *)
Definition try_except {A} (m : result A) (h : exn -> result A) : result A :=
  match m with
  | Ok a => Ok a
  | Raise e => h e
  end.

(** ** Unicode case data

    The case mappings and the two properties that [str.lower] and
    [str.upper] consult, for Unicode 14.0: the full mappings
    ([UnicodeData.txt] overridden by the unconditional entries of
    [SpecialCasing.txt]) and the derived properties [Cased] and
    [Case_Ignorable].  A run [(first, last, step, image)] maps every
    [step]-th code point from [first] to [last] to [image] shifted alike;
    a code point in no table maps to itself. *)

Module Unicode.
Local Open Scope N_scope.

Definition lower_runs : list (N * N * N * N) := [
  (65, 90, 1, 97); (192, 214, 1, 224); (216, 222, 1, 248);
  (256, 302, 2, 257); (306, 310, 2, 307); (313, 327, 2, 314);
  (330, 374, 2, 331); (376, 376, 1, 255); (377, 381, 2, 378);
  (385, 385, 1, 595); (386, 388, 2, 387); (390, 390, 1, 596);
  (391, 391, 1, 392); (393, 394, 1, 598); (395, 395, 1, 396);
  (398, 398, 1, 477); (399, 399, 1, 601); (400, 400, 1, 603);
  (401, 401, 1, 402); (403, 403, 1, 608); (404, 404, 1, 611);
  (406, 406, 1, 617); (407, 407, 1, 616); (408, 408, 1, 409);
  (412, 412, 1, 623); (413, 413, 1, 626); (415, 415, 1, 629);
  (416, 420, 2, 417); (422, 422, 1, 640); (423, 423, 1, 424);
  (425, 425, 1, 643); (428, 428, 1, 429); (430, 430, 1, 648);
  (431, 431, 1, 432); (433, 434, 1, 650); (435, 437, 2, 436);
  (439, 439, 1, 658); (440, 440, 1, 441); (444, 444, 1, 445);
  (452, 452, 1, 454); (453, 453, 1, 454); (455, 455, 1, 457);
  (456, 456, 1, 457); (458, 458, 1, 460); (459, 475, 2, 460);
  (478, 494, 2, 479); (497, 497, 1, 499); (498, 500, 2, 499);
  (502, 502, 1, 405); (503, 503, 1, 447); (504, 542, 2, 505);
  (544, 544, 1, 414); (546, 562, 2, 547); (570, 570, 1, 11365);
  (571, 571, 1, 572); (573, 573, 1, 410); (574, 574, 1, 11366);
  (577, 577, 1, 578); (579, 579, 1, 384); (580, 580, 1, 649);
  (581, 581, 1, 652); (582, 590, 2, 583); (880, 882, 2, 881);
  (886, 886, 1, 887); (895, 895, 1, 1011); (902, 902, 1, 940);
  (904, 906, 1, 941); (908, 908, 1, 972); (910, 911, 1, 973);
  (913, 929, 1, 945); (931, 939, 1, 963); (975, 975, 1, 983);
  (984, 1006, 2, 985); (1012, 1012, 1, 952); (1015, 1015, 1, 1016);
  (1017, 1017, 1, 1010); (1018, 1018, 1, 1019); (1021, 1023, 1, 891);
  (1024, 1039, 1, 1104); (1040, 1071, 1, 1072); (1120, 1152, 2, 1121);
  (1162, 1214, 2, 1163); (1216, 1216, 1, 1231); (1217, 1229, 2, 1218);
  (1232, 1326, 2, 1233); (1329, 1366, 1, 1377); (4256, 4293, 1, 11520);
  (4295, 4295, 1, 11559); (4301, 4301, 1, 11565); (5024, 5103, 1, 43888);
  (5104, 5109, 1, 5112); (7312, 7354, 1, 4304); (7357, 7359, 1, 4349);
  (7680, 7828, 2, 7681); (7838, 7838, 1, 223); (7840, 7934, 2, 7841);
  (7944, 7951, 1, 7936); (7960, 7965, 1, 7952); (7976, 7983, 1, 7968);
  (7992, 7999, 1, 7984); (8008, 8013, 1, 8000); (8025, 8031, 2, 8017);
  (8040, 8047, 1, 8032); (8072, 8079, 1, 8064); (8088, 8095, 1, 8080);
  (8104, 8111, 1, 8096); (8120, 8121, 1, 8112); (8122, 8123, 1, 8048);
  (8124, 8124, 1, 8115); (8136, 8139, 1, 8050); (8140, 8140, 1, 8131);
  (8152, 8153, 1, 8144); (8154, 8155, 1, 8054); (8168, 8169, 1, 8160);
  (8170, 8171, 1, 8058); (8172, 8172, 1, 8165); (8184, 8185, 1, 8056);
  (8186, 8187, 1, 8060); (8188, 8188, 1, 8179); (8486, 8486, 1, 969);
  (8490, 8490, 1, 107); (8491, 8491, 1, 229); (8498, 8498, 1, 8526);
  (8544, 8559, 1, 8560); (8579, 8579, 1, 8580); (9398, 9423, 1, 9424);
  (11264, 11311, 1, 11312); (11360, 11360, 1, 11361); (11362, 11362, 1, 619);
  (11363, 11363, 1, 7549); (11364, 11364, 1, 637); (11367, 11371, 2, 11368);
  (11373, 11373, 1, 593); (11374, 11374, 1, 625); (11375, 11375, 1, 592);
  (11376, 11376, 1, 594); (11378, 11378, 1, 11379); (11381, 11381, 1, 11382);
  (11390, 11391, 1, 575); (11392, 11490, 2, 11393); (11499, 11501, 2, 11500);
  (11506, 11506, 1, 11507); (42560, 42604, 2, 42561); (42624, 42650, 2, 42625);
  (42786, 42798, 2, 42787); (42802, 42862, 2, 42803); (42873, 42875, 2, 42874);
  (42877, 42877, 1, 7545); (42878, 42886, 2, 42879); (42891, 42891, 1, 42892);
  (42893, 42893, 1, 613); (42896, 42898, 2, 42897); (42902, 42920, 2, 42903);
  (42922, 42922, 1, 614); (42923, 42923, 1, 604); (42924, 42924, 1, 609);
  (42925, 42925, 1, 620); (42926, 42926, 1, 618); (42928, 42928, 1, 670);
  (42929, 42929, 1, 647); (42930, 42930, 1, 669); (42931, 42931, 1, 43859);
  (42932, 42946, 2, 42933); (42948, 42948, 1, 42900); (42949, 42949, 1, 642);
  (42950, 42950, 1, 7566); (42951, 42953, 2, 42952); (42960, 42960, 1, 42961);
  (42966, 42968, 2, 42967); (42997, 42997, 1, 42998); (65313, 65338, 1, 65345);
  (66560, 66599, 1, 66600); (66736, 66771, 1, 66776); (66928, 66938, 1, 66967);
  (66940, 66954, 1, 66979); (66956, 66962, 1, 66995); (66964, 66965, 1, 67003);
  (68736, 68786, 1, 68800); (71840, 71871, 1, 71872); (93760, 93791, 1, 93792);
  (125184, 125217, 1, 125218)
].

Definition lower_special : list (N * list N) := [
  (304, [105; 775])
].

Definition upper_runs : list (N * N * N * N) := [
  (97, 122, 1, 65); (181, 181, 1, 924); (224, 246, 1, 192);
  (248, 254, 1, 216); (255, 255, 1, 376); (257, 303, 2, 256);
  (305, 305, 1, 73); (307, 311, 2, 306); (314, 328, 2, 313);
  (331, 375, 2, 330); (378, 382, 2, 377); (383, 383, 1, 83);
  (384, 384, 1, 579); (387, 389, 2, 386); (392, 392, 1, 391);
  (396, 396, 1, 395); (402, 402, 1, 401); (405, 405, 1, 502);
  (409, 409, 1, 408); (410, 410, 1, 573); (414, 414, 1, 544);
  (417, 421, 2, 416); (424, 424, 1, 423); (429, 429, 1, 428);
  (432, 432, 1, 431); (436, 438, 2, 435); (441, 441, 1, 440);
  (445, 445, 1, 444); (447, 447, 1, 503); (453, 453, 1, 452);
  (454, 454, 1, 452); (456, 456, 1, 455); (457, 457, 1, 455);
  (459, 459, 1, 458); (460, 460, 1, 458); (462, 476, 2, 461);
  (477, 477, 1, 398); (479, 495, 2, 478); (498, 498, 1, 497);
  (499, 499, 1, 497); (501, 501, 1, 500); (505, 543, 2, 504);
  (547, 563, 2, 546); (572, 572, 1, 571); (575, 576, 1, 11390);
  (578, 578, 1, 577); (583, 591, 2, 582); (592, 592, 1, 11375);
  (593, 593, 1, 11373); (594, 594, 1, 11376); (595, 595, 1, 385);
  (596, 596, 1, 390); (598, 599, 1, 393); (601, 601, 1, 399);
  (603, 603, 1, 400); (604, 604, 1, 42923); (608, 608, 1, 403);
  (609, 609, 1, 42924); (611, 611, 1, 404); (613, 613, 1, 42893);
  (614, 614, 1, 42922); (616, 616, 1, 407); (617, 617, 1, 406);
  (618, 618, 1, 42926); (619, 619, 1, 11362); (620, 620, 1, 42925);
  (623, 623, 1, 412); (625, 625, 1, 11374); (626, 626, 1, 413);
  (629, 629, 1, 415); (637, 637, 1, 11364); (640, 640, 1, 422);
  (642, 642, 1, 42949); (643, 643, 1, 425); (647, 647, 1, 42929);
  (648, 648, 1, 430); (649, 649, 1, 580); (650, 651, 1, 433);
  (652, 652, 1, 581); (658, 658, 1, 439); (669, 669, 1, 42930);
  (670, 670, 1, 42928); (837, 837, 1, 921); (881, 883, 2, 880);
  (887, 887, 1, 886); (891, 893, 1, 1021); (940, 940, 1, 902);
  (941, 943, 1, 904); (945, 961, 1, 913); (962, 962, 1, 931);
  (963, 971, 1, 931); (972, 972, 1, 908); (973, 974, 1, 910);
  (976, 976, 1, 914); (977, 977, 1, 920); (981, 981, 1, 934);
  (982, 982, 1, 928); (983, 983, 1, 975); (985, 1007, 2, 984);
  (1008, 1008, 1, 922); (1009, 1009, 1, 929); (1010, 1010, 1, 1017);
  (1011, 1011, 1, 895); (1013, 1013, 1, 917); (1016, 1016, 1, 1015);
  (1019, 1019, 1, 1018); (1072, 1103, 1, 1040); (1104, 1119, 1, 1024);
  (1121, 1153, 2, 1120); (1163, 1215, 2, 1162); (1218, 1230, 2, 1217);
  (1231, 1231, 1, 1216); (1233, 1327, 2, 1232); (1377, 1414, 1, 1329);
  (4304, 4346, 1, 7312); (4349, 4351, 1, 7357); (5112, 5117, 1, 5104);
  (7296, 7296, 1, 1042); (7297, 7297, 1, 1044); (7298, 7298, 1, 1054);
  (7299, 7300, 1, 1057); (7301, 7301, 1, 1058); (7302, 7302, 1, 1066);
  (7303, 7303, 1, 1122); (7304, 7304, 1, 42570); (7545, 7545, 1, 42877);
  (7549, 7549, 1, 11363); (7566, 7566, 1, 42950); (7681, 7829, 2, 7680);
  (7835, 7835, 1, 7776); (7841, 7935, 2, 7840); (7936, 7943, 1, 7944);
  (7952, 7957, 1, 7960); (7968, 7975, 1, 7976); (7984, 7991, 1, 7992);
  (8000, 8005, 1, 8008); (8017, 8023, 2, 8025); (8032, 8039, 1, 8040);
  (8048, 8049, 1, 8122); (8050, 8053, 1, 8136); (8054, 8055, 1, 8154);
  (8056, 8057, 1, 8184); (8058, 8059, 1, 8170); (8060, 8061, 1, 8186);
  (8112, 8113, 1, 8120); (8126, 8126, 1, 921); (8144, 8145, 1, 8152);
  (8160, 8161, 1, 8168); (8165, 8165, 1, 8172); (8526, 8526, 1, 8498);
  (8560, 8575, 1, 8544); (8580, 8580, 1, 8579); (9424, 9449, 1, 9398);
  (11312, 11359, 1, 11264); (11361, 11361, 1, 11360); (11365, 11365, 1, 570);
  (11366, 11366, 1, 574); (11368, 11372, 2, 11367); (11379, 11379, 1, 11378);
  (11382, 11382, 1, 11381); (11393, 11491, 2, 11392); (11500, 11502, 2, 11499);
  (11507, 11507, 1, 11506); (11520, 11557, 1, 4256); (11559, 11559, 1, 4295);
  (11565, 11565, 1, 4301); (42561, 42605, 2, 42560); (42625, 42651, 2, 42624);
  (42787, 42799, 2, 42786); (42803, 42863, 2, 42802); (42874, 42876, 2, 42873);
  (42879, 42887, 2, 42878); (42892, 42892, 1, 42891); (42897, 42899, 2, 42896);
  (42900, 42900, 1, 42948); (42903, 42921, 2, 42902); (42933, 42947, 2, 42932);
  (42952, 42954, 2, 42951); (42961, 42961, 1, 42960); (42967, 42969, 2, 42966);
  (42998, 42998, 1, 42997); (43859, 43859, 1, 42931); (43888, 43967, 1, 5024);
  (65345, 65370, 1, 65313); (66600, 66639, 1, 66560); (66776, 66811, 1, 66736);
  (66967, 66977, 1, 66928); (66979, 66993, 1, 66940); (66995, 67001, 1, 66956);
  (67003, 67004, 1, 66964); (68800, 68850, 1, 68736); (71872, 71903, 1, 71840);
  (93792, 93823, 1, 93760); (125218, 125251, 1, 125184)
].

Definition upper_special : list (N * list N) := [
  (223, [83; 83]); (329, [700; 78]); (496, [74; 780]);
  (912, [921; 776; 769]); (944, [933; 776; 769]); (1415, [1333; 1362]);
  (7830, [72; 817]); (7831, [84; 776]); (7832, [87; 778]);
  (7833, [89; 778]); (7834, [65; 702]); (8016, [933; 787]);
  (8018, [933; 787; 768]); (8020, [933; 787; 769]); (8022, [933; 787; 834]);
  (8064, [7944; 921]); (8065, [7945; 921]); (8066, [7946; 921]);
  (8067, [7947; 921]); (8068, [7948; 921]); (8069, [7949; 921]);
  (8070, [7950; 921]); (8071, [7951; 921]); (8072, [7944; 921]);
  (8073, [7945; 921]); (8074, [7946; 921]); (8075, [7947; 921]);
  (8076, [7948; 921]); (8077, [7949; 921]); (8078, [7950; 921]);
  (8079, [7951; 921]); (8080, [7976; 921]); (8081, [7977; 921]);
  (8082, [7978; 921]); (8083, [7979; 921]); (8084, [7980; 921]);
  (8085, [7981; 921]); (8086, [7982; 921]); (8087, [7983; 921]);
  (8088, [7976; 921]); (8089, [7977; 921]); (8090, [7978; 921]);
  (8091, [7979; 921]); (8092, [7980; 921]); (8093, [7981; 921]);
  (8094, [7982; 921]); (8095, [7983; 921]); (8096, [8040; 921]);
  (8097, [8041; 921]); (8098, [8042; 921]); (8099, [8043; 921]);
  (8100, [8044; 921]); (8101, [8045; 921]); (8102, [8046; 921]);
  (8103, [8047; 921]); (8104, [8040; 921]); (8105, [8041; 921]);
  (8106, [8042; 921]); (8107, [8043; 921]); (8108, [8044; 921]);
  (8109, [8045; 921]); (8110, [8046; 921]); (8111, [8047; 921]);
  (8114, [8122; 921]); (8115, [913; 921]); (8116, [902; 921]);
  (8118, [913; 834]); (8119, [913; 834; 921]); (8124, [913; 921]);
  (8130, [8138; 921]); (8131, [919; 921]); (8132, [905; 921]);
  (8134, [919; 834]); (8135, [919; 834; 921]); (8140, [919; 921]);
  (8146, [921; 776; 768]); (8147, [921; 776; 769]); (8150, [921; 834]);
  (8151, [921; 776; 834]); (8162, [933; 776; 768]); (8163, [933; 776; 769]);
  (8164, [929; 787]); (8166, [933; 834]); (8167, [933; 776; 834]);
  (8178, [8186; 921]); (8179, [937; 921]); (8180, [911; 921]);
  (8182, [937; 834]); (8183, [937; 834; 921]); (8188, [937; 921]);
  (64256, [70; 70]); (64257, [70; 73]); (64258, [70; 76]);
  (64259, [70; 70; 73]); (64260, [70; 70; 76]); (64261, [83; 84]);
  (64262, [83; 84]); (64275, [1348; 1350]); (64276, [1348; 1333]);
  (64277, [1348; 1339]); (64278, [1358; 1350]); (64279, [1348; 1341])
].

Definition cased_ranges : list (N * N) := [
  (65, 90); (97, 122); (170, 170); (181, 181); (186, 186);
  (192, 214); (216, 246); (248, 442); (444, 447); (452, 659);
  (661, 696); (704, 705); (736, 740); (837, 837); (880, 883);
  (886, 887); (890, 893); (895, 895); (902, 902); (904, 906);
  (908, 908); (910, 929); (931, 1013); (1015, 1153); (1162, 1327);
  (1329, 1366); (1376, 1416); (4256, 4293); (4295, 4295); (4301, 4301);
  (4304, 4346); (4349, 4351); (5024, 5109); (5112, 5117); (7296, 7304);
  (7312, 7354); (7357, 7359); (7424, 7615); (7680, 7957); (7960, 7965);
  (7968, 8005); (8008, 8013); (8016, 8023); (8025, 8025); (8027, 8027);
  (8029, 8029); (8031, 8061); (8064, 8116); (8118, 8124); (8126, 8126);
  (8130, 8132); (8134, 8140); (8144, 8147); (8150, 8155); (8160, 8172);
  (8178, 8180); (8182, 8188); (8305, 8305); (8319, 8319); (8336, 8348);
  (8450, 8450); (8455, 8455); (8458, 8467); (8469, 8469); (8473, 8477);
  (8484, 8484); (8486, 8486); (8488, 8488); (8490, 8493); (8495, 8500);
  (8505, 8505); (8508, 8511); (8517, 8521); (8526, 8526); (8544, 8575);
  (8579, 8580); (9398, 9449); (11264, 11492); (11499, 11502); (11506, 11507);
  (11520, 11557); (11559, 11559); (11565, 11565); (42560, 42605); (42624, 42653);
  (42786, 42887); (42891, 42894); (42896, 42954); (42960, 42961); (42963, 42963);
  (42965, 42969); (42997, 42998); (43000, 43002); (43824, 43866); (43868, 43880);
  (43888, 43967); (64256, 64262); (64275, 64279); (65313, 65338); (65345, 65370);
  (66560, 66639); (66736, 66771); (66776, 66811); (66928, 66938); (66940, 66954);
  (66956, 66962); (66964, 66965); (66967, 66977); (66979, 66993); (66995, 67001);
  (67003, 67004); (67456, 67456); (67459, 67461); (67463, 67504); (67506, 67514);
  (68736, 68786); (68800, 68850); (71840, 71903); (93760, 93823); (119808, 119892);
  (119894, 119964); (119966, 119967); (119970, 119970); (119973, 119974); (119977, 119980);
  (119982, 119993); (119995, 119995); (119997, 120003); (120005, 120069); (120071, 120074);
  (120077, 120084); (120086, 120092); (120094, 120121); (120123, 120126); (120128, 120132);
  (120134, 120134); (120138, 120144); (120146, 120485); (120488, 120512); (120514, 120538);
  (120540, 120570); (120572, 120596); (120598, 120628); (120630, 120654); (120656, 120686);
  (120688, 120712); (120714, 120744); (120746, 120770); (120772, 120779); (122624, 122633);
  (122635, 122654); (125184, 125251); (127280, 127305); (127312, 127337); (127344, 127369)
].

Definition case_ignorable_ranges : list (N * N) := [
  (39, 39); (46, 46); (58, 58); (94, 94); (96, 96);
  (168, 168); (173, 173); (175, 175); (180, 180); (183, 184);
  (688, 879); (884, 885); (890, 890); (900, 901); (903, 903);
  (1155, 1161); (1369, 1369); (1375, 1375); (1425, 1469); (1471, 1471);
  (1473, 1474); (1476, 1477); (1479, 1479); (1524, 1524); (1536, 1541);
  (1552, 1562); (1564, 1564); (1600, 1600); (1611, 1631); (1648, 1648);
  (1750, 1757); (1759, 1768); (1770, 1773); (1807, 1807); (1809, 1809);
  (1840, 1866); (1958, 1968); (2027, 2037); (2042, 2042); (2045, 2045);
  (2070, 2093); (2137, 2139); (2184, 2184); (2192, 2193); (2200, 2207);
  (2249, 2306); (2362, 2362); (2364, 2364); (2369, 2376); (2381, 2381);
  (2385, 2391); (2402, 2403); (2417, 2417); (2433, 2433); (2492, 2492);
  (2497, 2500); (2509, 2509); (2530, 2531); (2558, 2558); (2561, 2562);
  (2620, 2620); (2625, 2626); (2631, 2632); (2635, 2637); (2641, 2641);
  (2672, 2673); (2677, 2677); (2689, 2690); (2748, 2748); (2753, 2757);
  (2759, 2760); (2765, 2765); (2786, 2787); (2810, 2815); (2817, 2817);
  (2876, 2876); (2879, 2879); (2881, 2884); (2893, 2893); (2901, 2902);
  (2914, 2915); (2946, 2946); (3008, 3008); (3021, 3021); (3072, 3072);
  (3076, 3076); (3132, 3132); (3134, 3136); (3142, 3144); (3146, 3149);
  (3157, 3158); (3170, 3171); (3201, 3201); (3260, 3260); (3263, 3263);
  (3270, 3270); (3276, 3277); (3298, 3299); (3328, 3329); (3387, 3388);
  (3393, 3396); (3405, 3405); (3426, 3427); (3457, 3457); (3530, 3530);
  (3538, 3540); (3542, 3542); (3633, 3633); (3636, 3642); (3654, 3662);
  (3761, 3761); (3764, 3772); (3782, 3782); (3784, 3789); (3864, 3865);
  (3893, 3893); (3895, 3895); (3897, 3897); (3953, 3966); (3968, 3972);
  (3974, 3975); (3981, 3991); (3993, 4028); (4038, 4038); (4141, 4144);
  (4146, 4151); (4153, 4154); (4157, 4158); (4184, 4185); (4190, 4192);
  (4209, 4212); (4226, 4226); (4229, 4230); (4237, 4237); (4253, 4253);
  (4348, 4348); (4957, 4959); (5906, 5908); (5938, 5939); (5970, 5971);
  (6002, 6003); (6068, 6069); (6071, 6077); (6086, 6086); (6089, 6099);
  (6103, 6103); (6109, 6109); (6155, 6159); (6211, 6211); (6277, 6278);
  (6313, 6313); (6432, 6434); (6439, 6440); (6450, 6450); (6457, 6459);
  (6679, 6680); (6683, 6683); (6742, 6742); (6744, 6750); (6752, 6752);
  (6754, 6754); (6757, 6764); (6771, 6780); (6783, 6783); (6823, 6823);
  (6832, 6862); (6912, 6915); (6964, 6964); (6966, 6970); (6972, 6972);
  (6978, 6978); (7019, 7027); (7040, 7041); (7074, 7077); (7080, 7081);
  (7083, 7085); (7142, 7142); (7144, 7145); (7149, 7149); (7151, 7153);
  (7212, 7219); (7222, 7223); (7288, 7293); (7376, 7378); (7380, 7392);
  (7394, 7400); (7405, 7405); (7412, 7412); (7416, 7417); (7468, 7530);
  (7544, 7544); (7579, 7679); (8125, 8125); (8127, 8129); (8141, 8143);
  (8157, 8159); (8173, 8175); (8189, 8190); (8203, 8207); (8216, 8217);
  (8228, 8228); (8231, 8231); (8234, 8238); (8288, 8292); (8294, 8303);
  (8305, 8305); (8319, 8319); (8336, 8348); (8400, 8432); (11388, 11389);
  (11503, 11505); (11631, 11631); (11647, 11647); (11744, 11775); (11823, 11823);
  (12293, 12293); (12330, 12333); (12337, 12341); (12347, 12347); (12441, 12446);
  (12540, 12542); (40981, 40981); (42232, 42237); (42508, 42508); (42607, 42610);
  (42612, 42621); (42623, 42623); (42652, 42655); (42736, 42737); (42752, 42785);
  (42864, 42864); (42888, 42890); (42994, 42996); (43000, 43001); (43010, 43010);
  (43014, 43014); (43019, 43019); (43045, 43046); (43052, 43052); (43204, 43205);
  (43232, 43249); (43263, 43263); (43302, 43309); (43335, 43345); (43392, 43394);
  (43443, 43443); (43446, 43449); (43452, 43453); (43471, 43471); (43493, 43494);
  (43561, 43566); (43569, 43570); (43573, 43574); (43587, 43587); (43596, 43596);
  (43632, 43632); (43644, 43644); (43696, 43696); (43698, 43700); (43703, 43704);
  (43710, 43711); (43713, 43713); (43741, 43741); (43756, 43757); (43763, 43764);
  (43766, 43766); (43867, 43871); (43881, 43883); (44005, 44005); (44008, 44008);
  (44013, 44013); (64286, 64286); (64434, 64450); (65024, 65039); (65043, 65043);
  (65056, 65071); (65106, 65106); (65109, 65109); (65279, 65279); (65287, 65287);
  (65294, 65294); (65306, 65306); (65342, 65342); (65344, 65344); (65392, 65392);
  (65438, 65439); (65507, 65507); (65529, 65531); (66045, 66045); (66272, 66272);
  (66422, 66426); (67456, 67461); (67463, 67504); (67506, 67514); (68097, 68099);
  (68101, 68102); (68108, 68111); (68152, 68154); (68159, 68159); (68325, 68326);
  (68900, 68903); (69291, 69292); (69446, 69456); (69506, 69509); (69633, 69633);
  (69688, 69702); (69744, 69744); (69747, 69748); (69759, 69761); (69811, 69814);
  (69817, 69818); (69821, 69821); (69826, 69826); (69837, 69837); (69888, 69890);
  (69927, 69931); (69933, 69940); (70003, 70003); (70016, 70017); (70070, 70078);
  (70089, 70092); (70095, 70095); (70191, 70193); (70196, 70196); (70198, 70199);
  (70206, 70206); (70367, 70367); (70371, 70378); (70400, 70401); (70459, 70460);
  (70464, 70464); (70502, 70508); (70512, 70516); (70712, 70719); (70722, 70724);
  (70726, 70726); (70750, 70750); (70835, 70840); (70842, 70842); (70847, 70848);
  (70850, 70851); (71090, 71093); (71100, 71101); (71103, 71104); (71132, 71133);
  (71219, 71226); (71229, 71229); (71231, 71232); (71339, 71339); (71341, 71341);
  (71344, 71349); (71351, 71351); (71453, 71455); (71458, 71461); (71463, 71467);
  (71727, 71735); (71737, 71738); (71995, 71996); (71998, 71998); (72003, 72003);
  (72148, 72151); (72154, 72155); (72160, 72160); (72193, 72202); (72243, 72248);
  (72251, 72254); (72263, 72263); (72273, 72278); (72281, 72283); (72330, 72342);
  (72344, 72345); (72752, 72758); (72760, 72765); (72767, 72767); (72850, 72871);
  (72874, 72880); (72882, 72883); (72885, 72886); (73009, 73014); (73018, 73018);
  (73020, 73021); (73023, 73029); (73031, 73031); (73104, 73105); (73109, 73109);
  (73111, 73111); (73459, 73460); (78896, 78904); (92912, 92916); (92976, 92982);
  (92992, 92995); (94031, 94031); (94095, 94111); (94176, 94177); (94179, 94180);
  (110576, 110579); (110581, 110587); (110589, 110590); (113821, 113822); (113824, 113827);
  (118528, 118573); (118576, 118598); (119143, 119145); (119155, 119170); (119173, 119179);
  (119210, 119213); (119362, 119364); (121344, 121398); (121403, 121452); (121461, 121461);
  (121476, 121476); (121499, 121503); (121505, 121519); (122880, 122886); (122888, 122904);
  (122907, 122913); (122915, 122916); (122918, 122922); (123184, 123197); (123566, 123566);
  (123628, 123631); (125136, 125142); (125252, 125259); (127995, 127999); (917505, 917505);
  (917536, 917631); (917760, 917999)
].

Definition in_range (c : N) (r : N * N) : bool :=
  (fst r <=? c) && (c <=? snd r).

Definition in_ranges (c : N) (rs : list (N * N)) : bool :=
  existsb (in_range c) rs.

(** The property [Cased]. *)
Definition cased (c : N) : bool := in_ranges c cased_ranges.

(** The property [Case_Ignorable]. *)
Definition case_ignorable (c : N) : bool := in_ranges c case_ignorable_ranges.

Definition run_image (c : N) (r : N * N * N * N) : option N :=
  let '(first, last, step, image) := r in
  if (first <=? c) && (c <=? last) && (N.modulo (c - first) step =? 0)
  then Some (image + (c - first))
  else None.

Fixpoint find_run (c : N) (runs : list (N * N * N * N)) : option N :=
  match runs with
  | [] => None
  | r :: runs' =>
      match run_image c r with
      | Some d => Some d
      | None => find_run c runs'
      end
  end.

Fixpoint find_special (c : N) (special : list (N * list N))
    : option (list N) :=
  match special with
  | [] => None
  | (k, ds) :: special' => if k =? c then Some ds else find_special c special'
  end.

(** The code points a code point maps to; never none. *)
Definition full_mapping (runs : list (N * N * N * N))
    (special : list (N * list N)) (c : N) : list N :=
  match find_special c special with
  | Some (d :: ds) => d :: ds
  | _ =>
      match find_run c runs with
      | Some d => [d]
      | None => [c]
      end
  end.

Definition to_lower (c : N) : list N := full_mapping lower_runs lower_special c.
Definition to_upper (c : N) : list N := full_mapping upper_runs upper_special c.

(** GREEK CAPITAL LETTER SIGMA and its two lower-case forms. *)
Definition capital_sigma : N := 931.
Definition small_sigma : N := 963.
Definition small_final_sigma : N := 962.

End Unicode.

(** ** Python strings

    A [string] holds the UTF-8 encoding of a Python [str].  The order of
    the bytes is the order of the code points and a part of the text is a
    part of the bytes, so comparison and [in] work on the bytes; the case
    mappings work on the code points. *)

Module Str.

Definition code (b : ascii) : N := N_of_ascii b.

Definition is_ascii_char (b : ascii) : bool := (code b <? 128)%N.

(** [s.isascii()] *)
Fixpoint isascii (s : string) : bool :=
  match s with
  | EmptyString => true
  | String b s' => is_ascii_char b && isascii s'
  end.

(** The case mappings of the ASCII letters, on a byte. *)
Definition lower_char (c : ascii) : ascii :=
  let n := N_of_ascii c in
  if ((65 <=? n) && (n <=? 90))%N then ascii_of_N (n + 32) else c.

Definition upper_char (c : ascii) : ascii :=
  let n := N_of_ascii c in
  if ((97 <=? n) && (n <=? 122))%N then ascii_of_N (n - 32) else c.

(** The payload of a continuation byte [10xxxxxx]. *)
Definition continuation (b : ascii) : option N :=
  let n := code b in
  if ((128 <=? n) && (n <? 192))%N then Some (n - 128)%N else None.

(** The code point at the head of the text and the text after it; [None]
    at the end of the text and where the bytes are not UTF-8. *)
Definition next_char (s : string) : option (N * string) :=
  match s with
  | EmptyString => None
  | String b0 s1 =>
      let n0 := code b0 in
      if (n0 <? 128)%N then Some (n0, s1)
      else if (n0 <? 192)%N then None
      else if (n0 <? 224)%N then
        match s1 with
        | String b1 s2 =>
            match continuation b1 with
            | Some x1 => Some ((n0 - 192) * 64 + x1, s2)%N
            | None => None
            end
        | _ => None
        end
      else if (n0 <? 240)%N then
        match s1 with
        | String b1 (String b2 s3) =>
            match continuation b1, continuation b2 with
            | Some x1, Some x2 =>
                Some (((n0 - 224) * 64 + x1) * 64 + x2, s3)%N
            | _, _ => None
            end
        | _ => None
        end
      else if (n0 <? 248)%N then
        match s1 with
        | String b1 (String b2 (String b3 s4)) =>
            match continuation b1, continuation b2, continuation b3 with
            | Some x1, Some x2, Some x3 =>
                Some ((((n0 - 240) * 64 + x1) * 64 + x2) * 64 + x3, s4)%N
            | _, _, _ => None
            end
        | _ => None
        end
      else None
  end.

(** The UTF-8 bytes of a code point. *)
Definition encode (c : N) : string :=
  if (c <? 128)%N then String (ascii_of_N c) EmptyString
  else if (c <? 2048)%N then
    String (ascii_of_N (192 + c / 64))
      (String (ascii_of_N (128 + N.modulo c 64)) EmptyString)
  else if (c <? 65536)%N then
    String (ascii_of_N (224 + c / 4096))
      (String (ascii_of_N (128 + N.modulo (c / 64) 64))
         (String (ascii_of_N (128 + N.modulo c 64)) EmptyString))
  else
    String (ascii_of_N (240 + c / 262144))
      (String (ascii_of_N (128 + N.modulo (c / 4096) 64))
         (String (ascii_of_N (128 + N.modulo (c / 64) 64))
            (String (ascii_of_N (128 + N.modulo c 64)) EmptyString))).

Fixpoint encode_all (cs : list N) : string :=
  match cs with
  | [] => EmptyString
  | c :: cs' => String.append (encode c) (encode_all cs')
  end.

(** The second half of the condition [Final_Sigma]: after skipping
    case-ignorable characters, no cased letter follows. *)
Fixpoint no_cased_follows (fuel : nat) (s : string) : bool :=
  match fuel with
  | O => true
  | S fuel' =>
      match next_char s with
      | Some (c, rest) =>
          if Unicode.case_ignorable c then no_cased_follows fuel' rest
          else negb (Unicode.cased c)
      | None => true
      end
  end.

(** The first half of [Final_Sigma], carried along the text: the nearest
    character before that is not case-ignorable is a cased letter. *)
Definition after_cased_next (after_cased : bool) (c : N) : bool :=
  if Unicode.case_ignorable c then after_cased else Unicode.cased c.

(** The lower-case form of the code point [c] in its context. *)
Definition lower_at (after_cased : bool) (c : N) (rest : string) : list N :=
  if (c =? Unicode.capital_sigma)%N then
    if after_cased && no_cased_follows (String.length rest) rest
    then [Unicode.small_final_sigma]
    else [Unicode.small_sigma]
  else Unicode.to_lower c.

Fixpoint lower_go (fuel : nat) (after_cased : bool) (s : string) : string :=
  match fuel with
  | O => EmptyString
  | S fuel' =>
      match s with
      | EmptyString => EmptyString
      | String b s1 =>
          if is_ascii_char b then
            String (lower_char b)
                   (lower_go fuel' (after_cased_next after_cased (code b)) s1)
          else
            match next_char s with
            | Some (c, rest) =>
                String.append
                  (encode_all (lower_at after_cased c rest))
                  (lower_go fuel' (after_cased_next after_cased c) rest)
            | None => String b (lower_go fuel' false s1)
            end
      end
  end.

(** [s.lower()] *)
Definition lower (s : string) : string := lower_go (String.length s) false s.

Fixpoint upper_go (fuel : nat) (s : string) : string :=
  match fuel with
  | O => EmptyString
  | S fuel' =>
      match s with
      | EmptyString => EmptyString
      | String b s1 =>
          if is_ascii_char b then String (upper_char b) (upper_go fuel' s1)
          else
            match next_char s with
            | Some (c, rest) =>
                String.append (encode_all (Unicode.to_upper c))
                              (upper_go fuel' rest)
            | None => String b (upper_go fuel' s1)
            end
      end
  end.

(** [s.upper()] *)
Definition upper (s : string) : string := upper_go (String.length s) s.

(** [s.lower()] and [s.upper()] on ASCII text: byte by byte. *)
Fixpoint lower_ascii (s : string) : string :=
  match s with
  | EmptyString => EmptyString
  | String c s' => String (lower_char c) (lower_ascii s')
  end.

Fixpoint upper_ascii (s : string) : string :=
  match s with
  | EmptyString => EmptyString
  | String c s' => String (upper_char c) (upper_ascii s')
  end.

(** [sub in s] *)
Fixpoint contains (sub s : string) : bool :=
  String.prefix sub s ||
  match s with
  | EmptyString => false
  | String _ s' => contains sub s'
  end.

(** [a < b] on [str] *)
Definition lt (a b : string) : bool := String.ltb a b.

(** [a == b] on [str] *)
Definition eq (a b : string) : bool := String.eqb a b.

End Str.

(** ** Numbers *)

(** [x < y] on prices *)
Definition Qlt_bool (x y : Q) : bool := negb (Qle_bool y x).

(** ** Catalog records *)

Module Sneaker.

(** The nested object under the key ["stockx"]. *)
Record market : Type := mkMarket {
  lastSale : option Q
}.

Record t : Type := mk {
  id : option string;
  brand : option string;
  model : option string;
  colorway : option string;
  releaseDate : option string;
  tags : option (list string);
  stockx : option market;
  extra : list (string * string)
}.

(** [d.get(key, dflt)] where the key is one of the fields *)
Definition get {A} (field : option A) (dflt : A) : A := default dflt field.

(** [it.get("stockx", {}).get("lastSale")] *)
Definition last_sale (it : t) : option Q :=
  lastSale (get (stockx it) (mkMarket None)).

End Sneaker.

Abbreviation sneaker := Sneaker.t.

(** ** [filter_sneakers] *)

(** [if s and cond(s)]: the guard of a string criterion. *)
Definition str_guard (s : option string) (cond : string -> bool) : bool :=
  match s with
  | Some (String _ _ as s') => cond s'
  | _ => false
  end.

(** [if p is not None and cond(p)]: the guard of a price criterion. *)
Definition num_guard (p : option Q) (cond : Q -> bool) : bool :=
  match p with
  | Some p' => cond p'
  | None => false
  end.

(** The body of the loop of [filter_sneakers] for one item: the value of
    [ok] when the final [if ok] is reached. *)
Definition item_ok (it : sneaker)
    (q brand model : option string) (min_price max_price : option Q)
    (release_from release_to : option string) : bool :=
  let ok := true in
  let text := Str.lower (Sneaker.get (Sneaker.brand it) "" ++ " " ++
                         Sneaker.get (Sneaker.model it) "" ++ " " ++
                         Sneaker.get (Sneaker.colorway it) "") in
  let ok := if str_guard q (fun q => negb (Str.contains (Str.lower q) text))
            then false else ok in
  let ok := if str_guard brand (fun brand =>
                 negb (Str.eq (Str.lower (Sneaker.get (Sneaker.brand it) ""))
                              (Str.lower brand)))
            then false else ok in
  let ok := if str_guard model (fun model =>
                 negb (Str.contains (Str.lower model)
                        (Str.lower (Sneaker.get (Sneaker.model it) ""))))
            then false else ok in
  let last_sale := Sneaker.last_sale it in
  let ok := if num_guard min_price (fun min_price =>
                 match last_sale with
                 | None => true
                 | Some v => Qlt_bool v min_price
                 end)
            then false else ok in
  let ok := if num_guard max_price (fun max_price =>
                 match last_sale with
                 | None => true
                 | Some v => Qlt_bool max_price v
                 end)
            then false else ok in
  let rd := Sneaker.releaseDate it in
  let ok := if str_guard release_from (fun release_from =>
                 match rd with
                 | None => true
                 | Some rd => Str.lt rd release_from
                 end)
            then false else ok in
  let ok := if str_guard release_to (fun release_to =>
                 match rd with
                 | None => true
                 | Some rd => Str.lt release_to rd
                 end)
            then false else ok in
  ok.

(** [res = []; for it in items: ...; if ok: res.append(it); return res] *)
Definition filter_sneakers (items : list sneaker)
    (q brand model : option string) (min_price max_price : option Q)
    (release_from release_to : option string) : list sneaker :=
  fold_left
    (fun res it =>
       if item_ok it q brand model min_price max_price release_from release_to
       then res ++ [it] else res)
    items [].

(** [brand + " " + model + " " + colorway], absent fields read as [""]. *)
Definition search_text (it : sneaker) : string :=
  Sneaker.get (Sneaker.brand it) "" ++ " " ++
  Sneaker.get (Sneaker.model it) "" ++ " " ++
  Sneaker.get (Sneaker.colorway it) "".

(** ** [sorted(l, key=key, reverse=True)]

    Python's sort is stable, also under [reverse=True]: elements whose keys
    are equal keep the order they have in [l].  Insertion from the right
    end, each element stopping in front of the first key that is not
    greater than its own, computes that order. *)

Section Sorted.
Context {A : Type} (key : A -> Q).

Fixpoint insert_desc (x : A) (l : list A) : list A :=
  match l with
  | [] => [x]
  | y :: l' =>
      if Qlt_bool (key x) (key y) then y :: insert_desc x l' else x :: l
  end.

Definition sorted_reverse (l : list A) : list A := foldr insert_desc [] l.

(** [x] may stand in front of [y] in descending key order. *)
Definition desc (x y : A) : Prop := (key y <= key x)%Q.

(** The records whose key equals [k]. *)
Definition key_class (k : Q) (l : list A) : list A :=
  List.filter (fun x => Qeq_bool (key x) k) l.
End Sorted.

(** ** [trending] *)

(** ["trending" in d.get("tags", [])] *)
Definition is_trending (d : sneaker) : bool :=
  existsb (Str.eq "trending") (Sneaker.get (Sneaker.tags d) []).

(** [lambda x: x.get("stockx", {}).get("lastSale", 0)] *)
Definition sale_key (x : sneaker) : Q :=
  Sneaker.get (Sneaker.lastSale (Sneaker.get (Sneaker.stockx x) (Sneaker.mkMarket None))) 0%Q.

(** [d["id"]]: raises [KeyError] when the key is absent. *)
Definition subscript_id (d : sneaker) : result string :=
  match Sneaker.id d with
  | Some i => Ok i
  | None => Raise (KeyError "id")
  end.

(** [{t["id"] for t in tagged}] *)
Fixpoint id_set (tagged : list sneaker) : result (gset string) :=
  match tagged with
  | [] => Ok ∅
  | t :: rest =>
      i ← subscript_id t;
      ids ← id_set rest;
      mret ({[ i ]} ∪ ids)
  end.

(** [len(l)] *)
Definition len {A} (l : list A) : Z := Z.of_nat (length l).

(** [l[:n]]: a negative [n] counts from the end. *)
Definition slice_to {A} (l : list A) (n : Z) : list A :=
  if (0 <=? n)%Z then take (Z.to_nat n) l
  else take (length l - Z.to_nat (- n)) l.

(** The loop [for item in remaining: ...] of [trending]; [ids] is never
    updated, and the loop leaves at the first moment [len(tagged) >= limit]. *)
Fixpoint fill (ids : gset string) (limit : Z)
    (remaining tagged : list sneaker) : result (list sneaker) :=
  match remaining with
  | [] => Ok tagged
  | item :: rest =>
      i ← subscript_id item;
      let tagged := if decide (i ∈ ids) then tagged else tagged ++ [item] in
      if (len tagged >=? limit)%Z then Ok tagged
      else fill ids limit rest tagged
  end.

(** The body of [trending] after [data = load_mock()]. *)
Definition trending (data : list sneaker) (limit : Z) : result (list sneaker) :=
  let tagged := List.filter is_trending data in
  tagged ←
    (if (len tagged <? limit)%Z then
       let remaining := sorted_reverse sale_key data in
       ids ← id_set tagged;
       fill ids limit remaining tagged
     else Ok tagged);
  mret (slice_to tagged limit).

(** ** [sneaker_detail] *)

(** [s.get("id") == sneaker_id]: an absent id is [None], equal to no string. *)
Definition id_is (s : sneaker) (sneaker_id : string) : bool :=
  match Sneaker.id s with
  | Some i => Str.eq i sneaker_id
  | None => false
  end.

(** The body of [sneaker_detail] after [data = load_mock()]. *)
Fixpoint sneaker_detail (data : list sneaker) (sneaker_id : string)
    : result sneaker :=
  match data with
  | [] => Raise (HTTPException 404 "Sneaker not found")
  | s :: rest =>
      if id_is s sneaker_id then Ok s else sneaker_detail rest sneaker_id
  end.

(** ** Predicates on the selection *)

(** The record carries the key ["id"]. *)
Definition has_id (d : sneaker) : Prop := is_Some (Sneaker.id d).

(** The test [item["id"] not in ids] of the loop, where it can be evaluated. *)
Definition eligible (ids : gset string) (item : sneaker) : bool :=
  match Sneaker.id item with
  | Some i => bool_decide (i ∉ ids)
  | None => false
  end.

(** The record has an id, and no record of [tagged] has that id. *)
Definition untagged_id (tagged : list sneaker) (item : sneaker) : bool :=
  match Sneaker.id item with
  | Some i => negb (existsb (fun t => id_is t i) tagged)
  | None => false
  end.

(** The fill candidates: the ranked records of untagged id. *)
Definition candidates (data : list sneaker) : list sneaker :=
  List.filter (untagged_id (List.filter is_trending data))
              (sorted_reverse sale_key data).

(** ** [load_mock] and the routes

    The file system and the JSON decoder are the environment: [open_read]
    is [open(path, "r")] followed by reading the text, [json_load] is the
    decoder applied to it.  Either may raise. *)

Section Loader.
Variable DATA_PATH : string.
Variable open_read : string -> result string.
Variable json_load : string -> result (list sneaker).

Definition load_mock : result (list sneaker) :=
  try_except
    (f ← open_read DATA_PATH; json_load f)
    (fun _ => Ok []).

(** [GET /api/trending] *)
Definition route_trending (limit : Z) : result (list sneaker) :=
  data ← load_mock; trending data limit.

(** [GET /api/search] *)
Definition route_search (q brand model : option string)
    (min_price max_price : option Q)
    (release_from release_to : option string) : result (list sneaker) :=
  data ← load_mock;
  mret (filter_sneakers data q brand model min_price max_price
          release_from release_to).

(** [GET /api/sneakers/{sneaker_id}] *)
Definition route_sneaker_detail (sneaker_id : string) : result sneaker :=
  data ← load_mock; sneaker_detail data sneaker_id.
End Loader.

(** ** Stored documents: [list_designs] and [list_alerts]

    A document of the store is a [dict] with string keys.  Its values are
    told apart as far as [str] does: a [str], a bson [ObjectId] (whose
    [str] is its hexadecimal text), or any other value, given by the text
    [str] prints for it. *)

Inductive value : Type :=
| VStr (s : string)
| VObjectId (hex : string)
| VOther (shown : string).

Abbreviation document := (gmap string value).

(** [str(d.get(key))]: an absent key reads as [None], printed ["None"]. *)
Definition py_str (v : option value) : string :=
  match v with
  | None => "None"
  | Some (VStr s) => s
  | Some (VObjectId hex) => hex
  | Some (VOther shown) => shown
  end.

(** [if v: filt[key] = v] *)
Definition set_if_truthy (key : string) (v : option string)
    (filt : gmap string string) : gmap string string :=
  match v with
  | Some (String _ _ as v') => <[key := v']> filt
  | _ => filt
  end.

(** [filt = {}; if userId: ...; if sneakerId: ...] *)
Definition query_filter (userId sneakerId : option string)
    : gmap string string :=
  let filt := ∅ in
  let filt := set_if_truthy "userId" userId filt in
  let filt := set_if_truthy "sneakerId" sneakerId filt in
  filt.

(** [d["_id"] = str(d.get("_id"))] *)
Definition stringify_id (d : document) : document :=
  <["_id" := VStr (py_str (d !! "_id"))]> d.

Section Documents.
(** [get_documents(collection_name, filter_dict)] of the store. *)
Variable get_documents : string -> gmap string string -> result (list document).

(** [GET /api/designs] *)
Definition list_designs (userId sneakerId : option string)
    : result (list document) :=
  let filt := query_filter userId sneakerId in
  docs ← get_documents "design" filt;
  mret (stringify_id <$> (docs : list document)).

(** [GET /api/alerts] *)
Definition list_alerts (userId sneakerId : option string)
    : result (list document) :=
  let filt := query_filter userId sneakerId in
  docs ← get_documents "alert" filt;
  mret (stringify_id <$> (docs : list document)).
End Documents.

(** The document [d'] is [d] with ["_id"] replaced by its text. *)
Definition id_stringified (d d' : document) : Prop :=
  d' !! "_id" = Some (VStr (py_str (d !! "_id"))) /\
  forall k, k <> "_id" -> d' !! k = d !! k.

(** ** The example catalog *)

Definition priced (i : string) (tg : list string) (price : Q) : sneaker :=
  Sneaker.mk (Some i) None None None None (Some tg)
             (Some (Sneaker.mkMarket (Some price))) [].

Definition rec_a : sneaker := priced "a" [] 100.
Definition rec_b : sneaker := priced "b" ["trending"] 50.
Definition rec_c : sneaker := priced "c" [] 200.
Definition example_catalog : list sneaker := [rec_a; rec_b; rec_c].

(** Two tagged records that share one id. *)
Definition twin_1 : sneaker := priced "x" ["trending"] 10.
Definition twin_2 : sneaker := priced "x" ["trending"] 20.

(** ** A catalog with text, dates and gaps *)

Definition sample_aj1 : sneaker :=
  Sneaker.mk (Some "aj1") (Some "Nike") (Some "Air Jordan 1") (Some "Chicago")
             (Some "2015-05-30") (Some ["trending"; "retro"])
             (Some (Sneaker.mkMarket (Some 450%Q))) [("sku", "555088-101")].

Definition sample_yeezy : sneaker :=
  Sneaker.mk (Some "yz350") (Some "adidas") (Some "Yeezy Boost 350")
             (Some "Zebra") (Some "2017-02-25") (Some [])
             (Some (Sneaker.mkMarket (Some 300%Q))) [].

Definition sample_nb550 : sneaker :=
  Sneaker.mk (Some "nb550") (Some "New Balance") (Some "550")
             (Some "White Green") None None None [].

Definition sample_catalog : list sneaker :=
  [sample_aj1; sample_yeezy; sample_nb550].

(** A record whose text is not ASCII. *)
Definition sample_weiss : sneaker :=
  Sneaker.mk (Some "samba-weiss") (Some "Adidas") (Some "Samba")
             (Some "Weiß") None None None [].

(** A tagged record without id. *)
Definition sample_anonymous : sneaker :=
  Sneaker.mk None (Some "Vans") (Some "Old Skool") None None
             (Some ["trending"]) None [].

(** ** Stored documents for the examples *)

Definition stored_design : document :=
  {[ "_id" := VObjectId "65a1f0c2e4b0a1b2c3d4e5f6";
     "userId" := VStr "u1"; "name" := VStr "Bred" ]}.
Definition stored_draft : document := {[ "name" := VStr "Draft" ]}.

(** A store that holds two designs and no alert, and answers every query
    on a collection with all of its documents. *)
Definition sample_store (collection : string) (filt : gmap string string)
    : result (list document) :=
  if String.eqb collection "design" then Ok [stored_design; stored_draft]
  else Ok [].

(** * Properties *)

(** ** Comparisons *)

Lemma Qlt_bool_false (x y : Q) : Qlt_bool x y = false <-> (y <= x)%Q.
Proof.
  unfold Qlt_bool. rewrite negb_false_iff. apply Qle_bool_iff.
Qed.

Lemma Qlt_bool_true (x y : Q) : Qlt_bool x y = true <-> (x < y)%Q.
Proof.
  unfold Qlt_bool. rewrite negb_true_iff. split.
  - intros H. apply Qnot_le_lt. intros Hle.
    apply Qle_bool_iff in Hle. congruence.
  - intros H. destruct (Qle_bool y x) eqn:E; [|reflexivity].
    apply Qle_bool_iff in E. exfalso. exact (Qlt_not_le _ _ H E).
Qed.

Lemma str_lt_false (a b : string) : Str.lt a b = false -> String.leb b a = true.
Proof.
  unfold Str.lt, String.ltb, String.leb.
  rewrite (String.compare_antisym b a).
  destruct (String.compare a b); simpl; congruence.
Qed.

(** ** The filter is [List.filter] with the loop body as predicate *)

Lemma filter_loop {A} (p : A -> bool) (items acc : list A) :
  fold_left (fun res it => if p it then res ++ [it] else res) items acc
  = acc ++ List.filter p items.
Proof.
  revert acc. induction items as [|it items IH]; intros acc; simpl.
  - now rewrite app_nil_r.
  - rewrite IH. destruct (p it); [|reflexivity].
    now rewrite <- app_assoc.
Qed.

Lemma filter_sneakers_filter items q brand model min_price max_price
    release_from release_to :
  filter_sneakers items q brand model min_price max_price release_from release_to
  = List.filter
      (fun it => item_ok it q brand model min_price max_price
                   release_from release_to)
      items.
Proof. unfold filter_sneakers. now rewrite filter_loop. Qed.

Lemma filter_sublist {A} (p : A -> bool) (l : list A) :
  sublist (List.filter p l) l.
Proof.
  induction l as [|x l IH]; simpl.
  - constructor.
  - destruct (p x); now constructor.
Qed.

(** Case analysis on the seven guards of the loop body. *)
Ltac ok_cases H :=
  unfold item_ok in H; cbv zeta in H;
  repeat match type of H with
         | context [if ?g then false else _] =>
             let E := fresh "G" in destruct g eqn:E; [discriminate H|]
         end.

Lemma item_ok_min_price it q brand model p max_price release_from release_to :
  item_ok it q brand model (Some p) max_price release_from release_to = true ->
  exists v, Sneaker.last_sale it = Some v /\ (p <= v)%Q.
Proof.
  intros H. ok_cases H. simpl in G2.
  destruct (Sneaker.last_sale it) as [v|]; [|discriminate].
  exists v. split; [reflexivity|]. now apply Qlt_bool_false.
Qed.

Lemma item_ok_max_price it q brand model min_price p release_from release_to :
  item_ok it q brand model min_price (Some p) release_from release_to = true ->
  exists v, Sneaker.last_sale it = Some v /\ (v <= p)%Q.
Proof.
  intros H. ok_cases H. simpl in G3.
  destruct (Sneaker.last_sale it) as [v|]; [|discriminate].
  exists v. split; [reflexivity|]. now apply Qlt_bool_false.
Qed.

Lemma item_ok_release_from it q brand model min_price max_price c rf release_to :
  item_ok it q brand model min_price max_price (Some (String c rf)) release_to
  = true ->
  exists rd, Sneaker.releaseDate it = Some rd /\
             String.leb (String c rf) rd = true.
Proof.
  intros H. ok_cases H. simpl in G4.
  destruct (Sneaker.releaseDate it) as [rd|]; [|discriminate].
  exists rd. split; [reflexivity|]. now apply str_lt_false.
Qed.

Lemma item_ok_release_to it q brand model min_price max_price release_from c rt :
  item_ok it q brand model min_price max_price release_from (Some (String c rt))
  = true ->
  exists rd, Sneaker.releaseDate it = Some rd /\
             String.leb rd (String c rt) = true.
Proof.
  intros H. ok_cases H. simpl in G5.
  destruct (Sneaker.releaseDate it) as [rd|]; [|discriminate].
  exists rd. split; [reflexivity|]. now apply str_lt_false.
Qed.

(** Every record kept under a price bound has a price on the right side of it. *)
Lemma kept_under_min_price items q brand model p max_price release_from
    release_to r :
  In r (filter_sneakers items q brand model (Some p) max_price
          release_from release_to) ->
  exists v, Sneaker.last_sale r = Some v /\ (p <= v)%Q.
Proof.
  rewrite filter_sneakers_filter. intros Hr.
  apply filter_In in Hr as [_ Hr]. now apply item_ok_min_price in Hr.
Qed.

Lemma kept_under_max_price items q brand model min_price p release_from
    release_to r :
  In r (filter_sneakers items q brand model min_price (Some p)
          release_from release_to) ->
  exists v, Sneaker.last_sale r = Some v /\ (v <= p)%Q.
Proof.
  rewrite filter_sneakers_filter. intros Hr.
  apply filter_In in Hr as [_ Hr]. now apply item_ok_max_price in Hr.
Qed.

(** ** Case folding *)

Lemma lower_upper_char (c : ascii) :
  Str.lower_char (Str.upper_char c) = Str.lower_char c.
Proof. destruct c as [[] [] [] [] [] [] [] []]; reflexivity. Qed.

Lemma lower_lower_char (c : ascii) :
  Str.lower_char (Str.lower_char c) = Str.lower_char c.
Proof. destruct c as [[] [] [] [] [] [] [] []]; reflexivity. Qed.

Lemma upper_char_ascii (c : ascii) :
  Str.is_ascii_char c = true -> Str.is_ascii_char (Str.upper_char c) = true.
Proof.
  destruct c as [[] [] [] [] [] [] [] []]; intros H;
    first [reflexivity|discriminate H].
Qed.

Lemma lower_char_ascii (c : ascii) :
  Str.is_ascii_char c = true -> Str.is_ascii_char (Str.lower_char c) = true.
Proof.
  destruct c as [[] [] [] [] [] [] [] []]; intros H;
    first [reflexivity|discriminate H].
Qed.

Lemma lower_upper_ascii (s : string) :
  Str.lower_ascii (Str.upper_ascii s) = Str.lower_ascii s.
Proof.
  induction s as [|c s IH]; simpl; [reflexivity|].
  now rewrite lower_upper_char, IH.
Qed.

Lemma lower_lower_ascii (s : string) :
  Str.lower_ascii (Str.lower_ascii s) = Str.lower_ascii s.
Proof.
  induction s as [|c s IH]; simpl; [reflexivity|].
  now rewrite lower_lower_char, IH.
Qed.

Lemma upper_ascii_isascii (s : string) :
  Str.isascii s = true -> Str.isascii (Str.upper_ascii s) = true.
Proof.
  induction s as [|c s IH]; cbn [Str.isascii Str.upper_ascii]; [reflexivity|].
  rewrite !andb_true_iff. intros [Hc Hs].
  split; [now apply upper_char_ascii|now apply IH].
Qed.

Lemma lower_ascii_isascii (s : string) :
  Str.isascii s = true -> Str.isascii (Str.lower_ascii s) = true.
Proof.
  induction s as [|c s IH]; cbn [Str.isascii Str.lower_ascii]; [reflexivity|].
  rewrite !andb_true_iff. intros [Hc Hs].
  split; [now apply lower_char_ascii|now apply IH].
Qed.

(** On ASCII text the case mappings work byte by byte. *)
Lemma lower_go_ascii (s : string) : forall fuel after_cased,
  Str.isascii s = true -> (String.length s <= fuel)%nat ->
  Str.lower_go fuel after_cased s = Str.lower_ascii s.
Proof.
  induction s as [|b s IH]; intros fuel after_cased Ha Hl.
  - now destruct fuel.
  - destruct fuel as [|fuel]; cbn [String.length] in Hl; [lia|].
    cbn [Str.isascii] in Ha. apply andb_true_iff in Ha as [Hb Hs].
    cbn [Str.lower_go Str.lower_ascii]. rewrite Hb. f_equal.
    apply IH; [assumption|lia].
Qed.

Lemma upper_go_ascii (s : string) : forall fuel,
  Str.isascii s = true -> (String.length s <= fuel)%nat ->
  Str.upper_go fuel s = Str.upper_ascii s.
Proof.
  induction s as [|b s IH]; intros fuel Ha Hl.
  - now destruct fuel.
  - destruct fuel as [|fuel]; cbn [String.length] in Hl; [lia|].
    cbn [Str.isascii] in Ha. apply andb_true_iff in Ha as [Hb Hs].
    cbn [Str.upper_go Str.upper_ascii]. rewrite Hb. f_equal.
    apply IH; [assumption|lia].
Qed.

Lemma lower_isascii (s : string) :
  Str.isascii s = true -> Str.lower s = Str.lower_ascii s.
Proof. intros H. now apply lower_go_ascii. Qed.

Lemma upper_isascii (s : string) :
  Str.isascii s = true -> Str.upper s = Str.upper_ascii s.
Proof. intros H. now apply upper_go_ascii. Qed.

(** On ASCII text lower-casing forgets an upper-casing or a lower-casing
    done before.  Not so on all text: the upper-case form of the sharp s
    is [SS]. *)
Lemma lower_upper (s : string) :
  Str.isascii s = true -> Str.lower (Str.upper s) = Str.lower s.
Proof.
  intros H. rewrite (upper_isascii s H), (lower_isascii s H).
  rewrite lower_isascii by now apply upper_ascii_isascii.
  apply lower_upper_ascii.
Qed.

Lemma lower_lower (s : string) :
  Str.isascii s = true -> Str.lower (Str.lower s) = Str.lower s.
Proof.
  intros H. rewrite (lower_isascii s H).
  rewrite lower_isascii by now apply lower_ascii_isascii.
  apply lower_lower_ascii.
Qed.

Lemma append_cons (c : ascii) (a b : string) :
  (String c a ++ b)%string = String c (a ++ b)%string.
Proof. reflexivity. Qed.

Lemma full_mapping_cons runs special c :
  exists d ds, Unicode.full_mapping runs special c = d :: ds.
Proof.
  unfold Unicode.full_mapping.
  destruct (Unicode.find_special c special) as [[|d ds]|]; eauto;
    destruct (Unicode.find_run c runs); eauto.
Qed.

Lemma lower_at_cons after_cased c rest :
  exists d ds, Str.lower_at after_cased c rest = d :: ds.
Proof.
  unfold Str.lower_at. destruct (c =? Unicode.capital_sigma)%N.
  - destruct (after_cased && _); eauto.
  - apply full_mapping_cons.
Qed.

Lemma encode_cons c : exists b s, Str.encode c = String b s.
Proof.
  unfold Str.encode.
  destruct (c <? 128)%N; [eauto|].
  destruct (c <? 2048)%N; [eauto|].
  destruct (c <? 65536)%N; eauto.
Qed.

(** Every character has a lower-case form of at least one character. *)
Lemma lower_empty (s : string) : Str.lower s = "" <-> s = "".
Proof.
  split; [|now intros ->].
  destruct s as [|b s]; [reflexivity|]. unfold Str.lower.
  cbn [String.length Str.lower_go].
  destruct (Str.is_ascii_char b); [discriminate|].
  destruct (Str.next_char (String b s)) as [[c rest]|]; [|discriminate].
  destruct (lower_at_cons false c rest) as (d & ds & ->).
  cbn [Str.encode_all]. destruct (encode_cons d) as (b' & s' & ->).
  rewrite !append_cons. discriminate.
Qed.

(** A criterion that is only read through [.lower()] is decided by its
    lower-case form. *)
Lemma str_guard_lower (q1 q2 : string) (cond : string -> bool) :
  Str.lower q1 = Str.lower q2 ->
  str_guard (Some q1) (fun q => cond (Str.lower q))
  = str_guard (Some q2) (fun q => cond (Str.lower q)).
Proof.
  intros E. destruct q1 as [|c1 q1], q2 as [|c2 q2]; cbn [str_guard].
  - reflexivity.
  - assert (H : Str.lower (String c2 q2) = "") by now rewrite <- E.
    apply (proj1 (lower_empty _)) in H. discriminate.
  - assert (H : Str.lower (String c1 q1) = "") by now rewrite E.
    apply (proj1 (lower_empty _)) in H. discriminate.
  - now rewrite E.
Qed.

Lemma item_ok_q_lower it q1 q2 brand model min_price max_price
    release_from release_to :
  Str.lower q1 = Str.lower q2 ->
  item_ok it (Some q1) brand model min_price max_price release_from release_to
  = item_ok it (Some q2) brand model min_price max_price release_from release_to.
Proof.
  intros E. unfold item_ok. cbv zeta.
  now rewrite (str_guard_lower q1 q2
    (fun q => negb (Str.contains q _)) E).
Qed.

Lemma filter_q_lower items q1 q2 brand model min_price max_price
    release_from release_to :
  Str.lower q1 = Str.lower q2 ->
  filter_sneakers items (Some q1) brand model min_price max_price
    release_from release_to
  = filter_sneakers items (Some q2) brand model min_price max_price
      release_from release_to.
Proof.
  intros E. rewrite !filter_sneakers_filter.
  apply filter_ext. intros it. now apply item_ok_q_lower.
Qed.

Lemma item_ok_only_q it c q :
  item_ok it (Some (String c q)) None None None None None None
  = Str.contains (Str.lower (String c q)) (Str.lower (search_text it)).
Proof.
  unfold item_ok, search_text. cbv zeta. simpl str_guard. simpl num_guard.
  now destruct (Str.contains _ _).
Qed.

Lemma item_ok_no_criteria it :
  item_ok it None None None None None None None = true.
Proof. reflexivity. Qed.

Lemma filter_true {A} (l : list A) : List.filter (fun _ => true) l = l.
Proof. induction l; simpl; congruence. Qed.

Lemma filter_sneakers_no_criteria items :
  filter_sneakers items None None None None None None None = items.
Proof. rewrite filter_sneakers_filter. apply filter_true. Qed.


(** ** The sort: a stable, descending rearrangement *)

Section SortedFacts.
Context {A : Type} (key : A -> Q).

Lemma insert_desc_perm x l : insert_desc key x l ≡ₚ x :: l.
Proof.
  induction l as [|y l IH]; simpl; [reflexivity|].
  destruct (Qlt_bool (key x) (key y)); [|reflexivity].
  rewrite IH. apply Permutation_swap.
Qed.

Lemma sorted_reverse_perm l : sorted_reverse key l ≡ₚ l.
Proof.
  induction l as [|x l IH]; simpl; [reflexivity|].
  now rewrite insert_desc_perm, IH.
Qed.

Lemma insert_desc_sorted x l :
  StronglySorted (desc key) l -> StronglySorted (desc key) (insert_desc key x l).
Proof.
  induction 1 as [|y l Hl IH Hy]; simpl.
  - repeat constructor.
  - destruct (Qlt_bool (key x) (key y)) eqn:E.
    + constructor; [exact IH|].
      rewrite insert_desc_perm. constructor; [|exact Hy].
      apply Qlt_bool_true in E. now apply Qlt_le_weak.
    + apply Qlt_bool_false in E.
      constructor; [now constructor|].
      constructor; [exact E|].
      eapply Forall_impl; [exact Hy|].
      intros z Hz. unfold desc in *. now apply Qle_trans with (key y).
Qed.

Lemma sorted_reverse_sorted l : StronglySorted (desc key) (sorted_reverse key l).
Proof.
  induction l as [|x l IH]; simpl; [constructor|].
  now apply insert_desc_sorted.
Qed.

Lemma insert_desc_class k x l :
  key_class key k (insert_desc key x l) = key_class key k (x :: l).
Proof.
  unfold key_class.
  induction l as [|y l IH]; [reflexivity|].
  cbn [insert_desc]. destruct (Qlt_bool (key x) (key y)) eqn:E; [|reflexivity].
  cbn [List.filter] in *. rewrite IH.
  destruct (Qeq_bool (key x) k) eqn:Ex, (Qeq_bool (key y) k) eqn:Ey;
    try reflexivity.
  exfalso. apply Qlt_bool_true in E.
  apply Qeq_bool_iff in Ex, Ey. rewrite Ex, Ey in E.
  exact (Qlt_irrefl _ E).
Qed.

Lemma sorted_reverse_stable k l :
  key_class key k (sorted_reverse key l) = key_class key k l.
Proof.
  induction l as [|x l IH]; [reflexivity|].
  cbn [sorted_reverse foldr]. rewrite insert_desc_class.
  unfold key_class in *. cbn [List.filter].
  fold (sorted_reverse key l). now rewrite IH.
Qed.
End SortedFacts.

(** ** The fill loop *)

Lemma id_is_true t i : id_is t i = true <-> Sneaker.id t = Some i.
Proof.
  unfold id_is, Str.eq. destruct (Sneaker.id t) as [j|].
  - rewrite String.eqb_eq. split; congruence.
  - split; discriminate.
Qed.

Lemma id_set_spec tagged ids :
  id_set tagged = Ok ids ->
  forall i, i ∈ ids <-> exists t, In t tagged /\ Sneaker.id t = Some i.
Proof.
  revert ids. induction tagged as [|t tagged IH]; intros ids H i.
  - injection H as <-. split; [set_solver|]. intros (t & [] & _).
  - cbn in H. unfold subscript_id in H.
    destruct (Sneaker.id t) as [j|] eqn:Ej; [|discriminate].
    cbn in H. destruct (id_set tagged) as [ids'|] eqn:E; [|discriminate].
    cbn in H. injection H as <-.
    rewrite elem_of_union, elem_of_singleton, (IH ids' eq_refl i).
    split.
    + intros [->|(t' & Ht' & Hi)].
      * exists t. split; [now left|assumption].
      * exists t'. split; [now right|assumption].
    + intros (t' & [<-|Ht'] & Hi).
      * left. congruence.
      * right. now exists t'.
Qed.

Lemma id_set_total tagged :
  Forall has_id tagged -> exists ids, id_set tagged = Ok ids.
Proof.
  induction 1 as [|t tagged [i Hi] _ [ids IH]].
  - now exists ∅.
  - exists ({[ i ]} ∪ ids). cbn. unfold subscript_id. rewrite Hi. cbn.
    now rewrite IH.
Qed.

Lemma eligible_untagged tagged ids item :
  id_set tagged = Ok ids -> eligible ids item = untagged_id tagged item.
Proof.
  intros H. unfold eligible, untagged_id.
  destruct (Sneaker.id item) as [i|]; [|reflexivity].
  pose proof (id_set_spec _ _ H i) as Hi.
  destruct (existsb (fun t => id_is t i) tagged) eqn:E; simpl.
  - apply bool_decide_eq_false. intros Hn. apply Hn, Hi.
    apply existsb_exists in E as (t & Ht & Hid).
    exists t. split; [assumption|]. now apply id_is_true.
  - apply bool_decide_eq_true. intros Hin. apply Hi in Hin as (t & Ht & Hid).
    assert (existsb (fun t => id_is t i) tagged = true); [|congruence].
    apply existsb_exists. exists t. split; [assumption|]. now apply id_is_true.
Qed.

Lemma len_app {A} (l1 l2 : list A) : len (l1 ++ l2) = (len l1 + len l2)%Z.
Proof. unfold len. rewrite length_app. lia. Qed.

(** When the loop returns, it has appended the first eligible records of
    [remaining], as many as were missing. *)
Lemma fill_spec ids limit remaining : forall tagged res,
  (len tagged < limit)%Z ->
  fill ids limit remaining tagged = Ok res ->
  res = tagged ++ take (Z.to_nat (limit - len tagged))
                       (List.filter (eligible ids) remaining).
Proof.
  induction remaining as [|item rest IH]; intros tagged res Hlt H.
  - cbn in H. injection H as <-. cbn. now rewrite take_nil, app_nil_r.
  - cbn in H. unfold subscript_id in H. cbn [List.filter]. unfold eligible at 1.
    destruct (Sneaker.id item) as [i|]; [|discriminate]. cbn in H.
    destruct (decide (i ∈ ids)) as [Hin|Hin].
    + rewrite bool_decide_eq_false_2 by tauto.
      destruct (len tagged >=? limit)%Z eqn:E; [lia|]. now apply IH.
    + rewrite bool_decide_eq_true_2 by assumption.
      assert (Hn : Z.to_nat (limit - len tagged)
                   = S (Z.to_nat (limit - len (tagged ++ [item])))).
      { rewrite len_app. unfold len in *. cbn [length]. lia. }
      rewrite Hn. cbn [take].
      destruct (len (tagged ++ [item]) >=? limit)%Z eqn:E.
      * injection H as <-.
        replace (Z.to_nat (limit - len (tagged ++ [item]))) with 0%nat by lia.
        now rewrite take_0.
      * apply IH in H; [|lia]. rewrite H, <- app_assoc. reflexivity.
Qed.

(** The loop raises only on a record without id. *)
Lemma fill_total ids limit remaining : forall tagged,
  Forall has_id remaining ->
  exists res, fill ids limit remaining tagged = Ok res.
Proof.
  induction remaining as [|item rest IH]; intros tagged Hall.
  - now exists tagged.
  - inversion Hall as [|? ? [i Hi] Hrest]; subst. cbn.
    unfold subscript_id. rewrite Hi. cbn.
    destruct (len _ >=? limit)%Z; [eauto|]. now apply IH.
Qed.

Lemma slice_to_short {A} (l : list A) (n : Z) :
  (len l <= n)%Z -> slice_to l n = l.
Proof.
  unfold slice_to, len. intros H.
  destruct (0 <=? n)%Z eqn:E; [|lia].
  apply take_ge. lia.
Qed.

Lemma slice_to_take {A} (l : list A) (n : Z) :
  (0 <= n)%Z -> slice_to l n = take (Z.to_nat n) l.
Proof.
  unfold slice_to. intros H. destruct (0 <=? n)%Z eqn:E; [reflexivity|lia].
Qed.

Lemma filter_all_has_id (p : sneaker -> bool) data :
  Forall has_id data -> Forall has_id (List.filter p data).
Proof.
  induction 1; simpl; [constructor|].
  destruct (p x); [constructor|]; assumption.
Qed.

(** What [trending] returns on either side of its test. *)
Lemma trending_enough data limit :
  (limit <= len (List.filter is_trending data))%Z ->
  trending data limit = Ok (slice_to (List.filter is_trending data) limit).
Proof.
  intros H. unfold trending.
  destruct (len _ <? limit)%Z eqn:E; [lia|]. reflexivity.
Qed.

Lemma trending_short data limit res :
  (len (List.filter is_trending data) < limit)%Z ->
  trending data limit = Ok res ->
  res = List.filter is_trending data ++
        take (Z.to_nat (limit - len (List.filter is_trending data)))
             (List.filter (untagged_id (List.filter is_trending data))
                          (sorted_reverse sale_key data)).
Proof.
  intros Hlt H. unfold trending in H.
  destruct (len _ <? limit)%Z eqn:E; [|lia].
  destruct (id_set (List.filter is_trending data)) as [ids|] eqn:Eids;
    [|discriminate].
  cbn in H.
  destruct (fill ids limit _ _) as [res'|] eqn:Ef; [|discriminate].
  cbn in H. injection H as <-.
  apply fill_spec in Ef; [|assumption].
  rewrite (filter_ext _ _ (fun item => eligible_untagged _ _ item Eids)) in Ef.
  subst res'. apply slice_to_short.
  rewrite len_app. unfold len at 2. rewrite length_take. lia.
Qed.

Lemma trending_total data limit :
  Forall has_id data -> exists res, trending data limit = Ok res.
Proof.
  intros Hall. unfold trending.
  destruct (len _ <? limit)%Z; [|cbn; eauto].
  destruct (id_set_total (List.filter is_trending data)) as [ids Hids].
  { now apply filter_all_has_id. }
  rewrite Hids. cbn.
  destruct (fill_total ids limit (sorted_reverse sale_key data)
              (List.filter is_trending data)) as [res Hres].
  { rewrite sorted_reverse_perm. exact Hall. }
  rewrite Hres. cbn. eauto.
Qed.

(** ** Size and ids of the selection *)

Lemma In_take {A} (x : A) (n : nat) (l : list A) : In x (take n l) -> In x l.
Proof.
  rewrite <- !list_elem_of_In. apply subseteq_take.
Qed.

Lemma slice_to_len {A} (l : list A) (n : Z) :
  (0 <= n)%Z -> (len (slice_to l n) <= n)%Z.
Proof.
  intros H. rewrite slice_to_take by assumption.
  unfold len. rewrite length_take. lia.
Qed.

Lemma trending_len data limit res :
  (0 <= limit)%Z -> trending data limit = Ok res -> (len res <= limit)%Z.
Proof.
  intros H0 H. unfold trending in H.
  destruct (if (len _ <? limit)%Z then _ else _) as [tagged|]; [|discriminate].
  cbn in H. injection H as <-. now apply slice_to_len.
Qed.

(** The selection is the head of the tagged list followed by records whose
    id no tagged record has. *)
Lemma trending_shape data limit res :
  (0 <= limit)%Z ->
  trending data limit = Ok res ->
  exists picked,
    res = take (Z.to_nat limit) (List.filter is_trending data) ++ picked /\
    Forall (fun p => untagged_id (List.filter is_trending data) p = true) picked /\
    sublist picked (sorted_reverse sale_key data).
Proof.
  intros H0 H.
  destruct (Z.lt_ge_cases (len (List.filter is_trending data)) limit) as [Hlt|Hge].
  - apply trending_short in H; [|assumption].
    eexists. split; [|split].
    + rewrite take_ge by (unfold len in Hlt; lia). exact H.
    + apply List.Forall_forall. intros p Hp.
      apply In_take in Hp. apply filter_In in Hp. tauto.
    + etrans; [apply sublist_take|apply filter_sublist].
  - rewrite trending_enough in H by assumption. injection H as <-.
    exists []. rewrite app_nil_r, slice_to_take by assumption.
    repeat split; [constructor|apply sublist_nil_l].
Qed.

Lemma untagged_id_spec tagged p :
  untagged_id tagged p = true ->
  forall t, In t tagged -> Sneaker.id t <> Sneaker.id p.
Proof.
  unfold untagged_id. intros H t Ht E.
  destruct (Sneaker.id p) as [i|]; [|discriminate].
  apply negb_true_iff in H.
  assert (existsb (fun t => id_is t i) tagged = true); [|congruence].
  apply existsb_exists. exists t. split; [assumption|]. now apply id_is_true.
Qed.

Lemma trending_nodup data limit res :
  (0 <= limit)%Z ->
  NoDup (Sneaker.id <$> data) ->
  trending data limit = Ok res ->
  NoDup (Sneaker.id <$> res).
Proof.
  intros H0 Hnd H.
  destruct (trending_shape _ _ _ H0 H) as (picked & -> & Hun & Hsub).
  rewrite fmap_app. apply NoDup_app. split; [|split].
  - apply sublist_NoDup with (Sneaker.id <$> data); [assumption|].
    apply fmap_sublist. etrans; [apply sublist_take|apply filter_sublist].
  - intros x (t & -> & Ht)%list_elem_of_fmap (p & E & Hp)%list_elem_of_fmap.
    rewrite List.Forall_forall in Hun.
    apply list_elem_of_In in Hp. apply list_elem_of_In in Ht.
    apply (untagged_id_spec _ _ (Hun p Hp) t); [|assumption].
    now apply In_take in Ht.
  - apply sublist_NoDup with (Sneaker.id <$> sorted_reverse sale_key data).
    + now rewrite sorted_reverse_perm.
    + now apply fmap_sublist.
Qed.

(** ** Detail lookup *)

Lemma sneaker_detail_raises data sneaker_id e :
  sneaker_detail data sneaker_id = Raise e ->
  e = HTTPException 404 "Sneaker not found" /\
  forall s, In s data -> Sneaker.id s <> Some sneaker_id.
Proof.
  induction data as [|s data IH]; cbn; intros H.
  - injection H as <-. split; [reflexivity|]. intros s [].
  - destruct (id_is s sneaker_id) eqn:E; [discriminate|].
    destruct (IH H) as [-> Hno]. split; [reflexivity|].
    intros s' [<-|Hs']; [|now apply Hno].
    intros Hid. apply id_is_true in Hid. congruence.
Qed.

Lemma sneaker_detail_returns data sneaker_id s :
  sneaker_detail data sneaker_id = Ok s ->
  exists pre post,
    data = pre ++ s :: post /\
    (forall x, In x pre -> Sneaker.id x <> Some sneaker_id) /\
    Sneaker.id s = Some sneaker_id.
Proof.
  induction data as [|s0 data IH]; cbn; intros H; [discriminate|].
  destruct (id_is s0 sneaker_id) eqn:E.
  - injection H as <-. exists [], data. split; [reflexivity|].
    split; [intros x []|]. now apply id_is_true.
  - destruct (IH H) as (pre & post & -> & Hpre & Hs).
    exists (s0 :: pre), post. split; [reflexivity|]. split; [|assumption].
    intros x [<-|Hx]; [|now apply Hpre].
    intros Hid. apply id_is_true in Hid. congruence.
Qed.

(** ** Routes *)

(** A route that only filters returns whatever the environment does. *)
Lemma route_search_returns DATA_PATH open_read json_load q brand model
    min_price max_price release_from release_to :
  exists res,
    route_search DATA_PATH open_read json_load q brand model min_price
      max_price release_from release_to = Ok res.
Proof.
  unfold route_search, load_mock.
  destruct (open_read DATA_PATH) as [f|e]; cbn; [|eauto].
  destruct (json_load f) as [data|e]; cbn; eauto.
Qed.

(** ** The examples of the specification *)

Example ranked_example :
  sorted_reverse sale_key example_catalog = [rec_c; rec_a; rec_b].
Proof. reflexivity. Qed.

Example min_price_example :
  filter_sneakers example_catalog None None None (Some 150%Q) None None None
  = [rec_c].
Proof. reflexivity. Qed.

Example no_criteria_example :
  filter_sneakers sample_catalog None None None None None None None
  = sample_catalog.
Proof. reflexivity. Qed.

Example brand_exact_example :
  filter_sneakers sample_catalog None (Some "NIKE") None None None None None
  = [sample_aj1] /\
  filter_sneakers sample_catalog None (Some "New") None None None None None
  = [].
Proof. split; reflexivity. Qed.

Example unpriced_last_example :
  trending sample_catalog 3 = Ok [sample_aj1; sample_yeezy; sample_nb550] /\
  sale_key sample_nb550 = 0%Q.
Proof. split; reflexivity. Qed.

Example lower_beyond_ascii_example :
  Str.lower "GARÇONS" = "garçons" /\
  Str.lower "ΟΔΟΣ ΣΟΦΙΑΣ" = "οδος σοφιας" /\
  Str.upper "straße" = "STRASSE" /\
  Str.contains (Str.lower "garçons") (Str.lower "Comme des GARÇONS") = true.
Proof. repeat split; vm_compute; reflexivity. Qed.

Example missing_id_example :
  sneaker_detail sample_catalog "none"
  = Raise (HTTPException 404 "Sneaker not found").
Proof. reflexivity. Qed.

Example negative_limit_example :
  trending [twin_1; twin_2] (-1) = Ok [twin_1].
Proof. reflexivity. Qed.

(** * The claims *)

(** ** Filter *)

(** C6. For every record sequence and every combination of criteria, the
    output of [filter_sneakers] is a subsequence of the input: it is the
    input with some records left out, so every output record occurs in the
    input and nothing is duplicated or reordered. *)
Theorem filter_sneakers_subsequence :
  forall items q brand model min_price max_price release_from release_to,
    sublist (filter_sneakers items q brand model min_price max_price
               release_from release_to) items /\
    forall it, In it (filter_sneakers items q brand model min_price max_price
                        release_from release_to) -> In it items.
Proof.
  intros. rewrite filter_sneakers_filter. split.
  - apply filter_sublist.
  - intros it Hit. apply filter_In in Hit. tauto.
Qed.

(** C5. With [min_price = p] every output record has a [lastSale] that is
    present and [>= p]; with [max_price = p] every output record has a
    [lastSale] that is present and [<= p]; a record without [lastSale] is
    in neither output. *)
Theorem filter_price_bounds :
  forall items q brand model p other release_from release_to,
    (forall r, In r (filter_sneakers items q brand model (Some p) other
                       release_from release_to) ->
               exists v, Sneaker.last_sale r = Some v /\ (p <= v)%Q) /\
    (forall r, In r (filter_sneakers items q brand model other (Some p)
                       release_from release_to) ->
               exists v, Sneaker.last_sale r = Some v /\ (v <= p)%Q) /\
    (forall r, Sneaker.last_sale r = None ->
               ~ In r (filter_sneakers items q brand model (Some p) other
                         release_from release_to) /\
               ~ In r (filter_sneakers items q brand model other (Some p)
                         release_from release_to)).
Proof.
  intros. split; [|split].
  - intros r. apply kept_under_min_price.
  - intros r. apply kept_under_max_price.
  - intros r Hnone. split; intros Hr.
    + apply kept_under_min_price in Hr as (v & Hv & _). congruence.
    + apply kept_under_max_price in Hr as (v & Hv & _). congruence.
Qed.

Lemma filter_price_bounds_witness :
  exists v, Sneaker.last_sale rec_c = Some v /\ (150 <= v)%Q.
Proof.
  apply (proj1 (filter_price_bounds example_catalog None None None 150%Q
                  None None None) rec_c).
  left. reflexivity.
Defined.

(** C2, as the code has it. A release bound that is supplied and not the
    empty string is enforced: under [release_from = rf] every output record
    has a [releaseDate] that is present and not below [rf], under
    [release_to = rt] one that is present and not above [rt], in the
    lexicographic order of strings. *)
Theorem filter_release_bounds :
  forall items q brand model min_price max_price bound other,
    bound <> "" ->
    (forall r, In r (filter_sneakers items q brand model min_price max_price
                       (Some bound) other) ->
               exists rd, Sneaker.releaseDate r = Some rd /\
                          String.leb bound rd = true) /\
    (forall r, In r (filter_sneakers items q brand model min_price max_price
                       other (Some bound)) ->
               exists rd, Sneaker.releaseDate r = Some rd /\
                          String.leb rd bound = true).
Proof.
  intros items q brand model min_price max_price bound other Hne.
  destruct bound as [|c bound]; [congruence|].
  rewrite !filter_sneakers_filter. split; intros r Hr;
    apply filter_In in Hr as [_ Hr].
  - now apply item_ok_release_from in Hr.
  - now apply item_ok_release_to in Hr.
Qed.

Lemma filter_release_bounds_witness :
  exists rd, Sneaker.releaseDate sample_yeezy = Some rd /\
             String.leb "2016-01-01" rd = true.
Proof.
  apply (proj1 (filter_release_bounds sample_catalog None None None None None
                  "2016-01-01" None ltac:(discriminate)) sample_yeezy).
  left. reflexivity.
Defined.

(** C2 fails as stated: [release_from = ""] is supplied and falsy, so the
    guard [if release_from and ...] lets a record without [releaseDate]
    through. *)
Lemma release_from_empty_keeps_undated :
  filter_sneakers [sample_nb550] None None None None None (Some "") None
  = [sample_nb550] /\
  Sneaker.releaseDate sample_nb550 = None.
Proof. split; reflexivity. Qed.

(** C3. An empty string for [q], [brand], [model], [release_from] or
    [release_to] behaves as the absent criterion; alone, [release_from = ""]
    returns the whole input, undated records included.  A price bound of
    [0] is a real bound: it keeps only records whose [lastSale] is present
    and on the right side of [0]. *)
Theorem filter_empty_string_and_zero :
  forall items q brand model min_price max_price release_from release_to,
    filter_sneakers items (Some "") brand model min_price max_price
      release_from release_to
    = filter_sneakers items None brand model min_price max_price
        release_from release_to /\
    filter_sneakers items q (Some "") model min_price max_price
      release_from release_to
    = filter_sneakers items q None model min_price max_price
        release_from release_to /\
    filter_sneakers items q brand (Some "") min_price max_price
      release_from release_to
    = filter_sneakers items q brand None min_price max_price
        release_from release_to /\
    filter_sneakers items q brand model min_price max_price
      (Some "") release_to
    = filter_sneakers items q brand model min_price max_price
        None release_to /\
    filter_sneakers items q brand model min_price max_price
      release_from (Some "")
    = filter_sneakers items q brand model min_price max_price
        release_from None /\
    filter_sneakers items None None None None None (Some "") None = items /\
    (forall r, In r (filter_sneakers items q brand model (Some 0%Q) max_price
                       release_from release_to) ->
               exists v, Sneaker.last_sale r = Some v /\ (0 <= v)%Q) /\
    (forall r, In r (filter_sneakers items q brand model min_price (Some 0%Q)
                       release_from release_to) ->
               exists v, Sneaker.last_sale r = Some v /\ (v <= 0)%Q).
Proof.
  intros. repeat (split; [reflexivity|]).
  split; [apply filter_sneakers_no_criteria|].
  split; intros r.
  - apply kept_under_min_price.
  - apply kept_under_max_price.
Qed.

(** C9, as the code has it. The [q] criterion is read only through
    [.lower()]: two values of [q] with the same lower-case form give the
    same output.  So the upper-case and the lower-case of an ASCII string
    do, and ["AIR"] and ["air"] do.  With [q] alone, a record is kept
    exactly when the lower-cased [q] occurs in the lower-cased
    [brand + " " + model + " " + colorway]. *)
Theorem filter_q_case_insensitive :
  forall items brand model min_price max_price release_from release_to,
    (forall s, Str.isascii s = true ->
       filter_sneakers items (Some (Str.upper s)) brand model min_price
         max_price release_from release_to
       = filter_sneakers items (Some (Str.lower s)) brand model min_price
           max_price release_from release_to) /\
    (forall q1 q2, Str.lower q1 = Str.lower q2 ->
       filter_sneakers items (Some q1) brand model min_price max_price
         release_from release_to
       = filter_sneakers items (Some q2) brand model min_price max_price
           release_from release_to) /\
    filter_sneakers items (Some "AIR") brand model min_price max_price
      release_from release_to
    = filter_sneakers items (Some "air") brand model min_price max_price
        release_from release_to /\
    (forall q it, q <> "" ->
       (In it (filter_sneakers items (Some q) None None None None None None)
        <-> In it items /\
            Str.contains (Str.lower q) (Str.lower (search_text it)) = true)).
Proof.
  intros. split; [|split; [|split]].
  - intros s Hs. apply filter_q_lower.
    now rewrite lower_upper, lower_lower.
  - intros q1 q2. apply filter_q_lower.
  - apply filter_q_lower. reflexivity.
  - intros q it Hq. destruct q as [|c q]; [congruence|].
    rewrite filter_sneakers_filter, filter_In. now rewrite item_ok_only_q.
Qed.

Lemma filter_q_case_insensitive_witness :
  filter_sneakers sample_catalog (Some (Str.upper "Jordan")) None None None
    None None None
  = filter_sneakers sample_catalog (Some (Str.lower "Jordan")) None None None
      None None None /\
  filter_sneakers sample_catalog (Some "jOrDaN") None None None None None None
  = filter_sneakers sample_catalog (Some "JORDAN") None None None None None None
  /\ In sample_aj1
       (filter_sneakers sample_catalog (Some "jOrDaN") None None None None
          None None).
Proof.
  split; [|split].
  - apply (proj1 (filter_q_case_insensitive sample_catalog None None None
                    None None None) "Jordan").
    reflexivity.
  - apply (proj1 (proj2 (filter_q_case_insensitive sample_catalog None None
                           None None None None)) "jOrDaN" "JORDAN").
    reflexivity.
  - left. reflexivity.
Defined.

(** C9 fails as stated: the upper-case form of the sharp s is [SS], whose
    lower-case form [ss] is not the sharp s.  A record with colorway
    [Weiß] is found by the lower-case of [ß] and not by its upper-case. *)
Lemma upper_lower_q_differ :
  Str.upper "ß" = "SS" /\
  Str.lower "ß" = "ß" /\
  filter_sneakers [sample_weiss] (Some (Str.upper "ß")) None None None None
    None None = [] /\
  filter_sneakers [sample_weiss] (Some (Str.lower "ß")) None None None None
    None None = [sample_weiss].
Proof. repeat split; vm_compute; reflexivity. Qed.

(** ** Trending *)

(** C7. When at least [limit] records are tagged ["trending"], the
    selection is exactly the first [limit] tagged records, in the order of
    the source; it has [limit] entries and every one of them is tagged. *)
Theorem trending_enough_tagged :
  forall data limit,
    (0 <= limit)%Z ->
    (limit <= len (List.filter is_trending data))%Z ->
    trending data limit
    = Ok (take (Z.to_nat limit) (List.filter is_trending data)) /\
    len (take (Z.to_nat limit) (List.filter is_trending data)) = limit /\
    Forall (fun r => is_trending r = true)
           (take (Z.to_nat limit) (List.filter is_trending data)) /\
    sublist (take (Z.to_nat limit) (List.filter is_trending data)) data.
Proof.
  intros data limit H0 Hge. split; [|split; [|split]].
  - rewrite trending_enough by assumption. now rewrite slice_to_take.
  - unfold len in *. rewrite length_take. lia.
  - apply List.Forall_forall. intros r Hr.
    apply In_take, filter_In in Hr. tauto.
  - etrans; [apply sublist_take|apply filter_sublist].
Qed.

Lemma trending_enough_tagged_witness :
  trending sample_catalog 1 = Ok [sample_aj1].
Proof.
  apply (proj1 (trending_enough_tagged sample_catalog 1
                  ltac:(discriminate) ltac:(discriminate))).
Defined.

(** C4. When fewer than [limit] records are tagged, the selection is the
    tagged list followed by the first [limit - len(tagged)] records of the
    ranked sequence whose id no tagged record has (all of them when there
    are fewer).  The ranked sequence is a rearrangement of the whole
    catalog, in descending order of [lastSale] with an absent price read
    as [0], and records of equal price stand in it in catalog order.  On
    the example catalog [trending(catalog, 2)] is [[b, c]]. *)
Theorem trending_fill :
  forall data limit,
    (len (List.filter is_trending data) < limit)%Z ->
    (forall res, trending data limit = Ok res ->
       res = List.filter is_trending data ++
             take (Z.to_nat (limit - len (List.filter is_trending data)))
                  (List.filter (untagged_id (List.filter is_trending data))
                               (sorted_reverse sale_key data))) /\
    (Forall has_id data -> exists res, trending data limit = Ok res) /\
    sorted_reverse sale_key data ≡ₚ data /\
    StronglySorted (desc sale_key) (sorted_reverse sale_key data) /\
    (forall k, key_class sale_key k (sorted_reverse sale_key data)
               = key_class sale_key k data) /\
    (forall x, Sneaker.last_sale x = None -> sale_key x = 0%Q) /\
    (forall x v, Sneaker.last_sale x = Some v -> sale_key x = v) /\
    trending example_catalog 2 = Ok [rec_b; rec_c].
Proof.
  intros data limit Hlt.
  split; [intros res; exact (trending_short data limit res Hlt)|].
  split; [apply trending_total|].
  split; [apply sorted_reverse_perm|].
  split; [apply sorted_reverse_sorted|].
  split; [intros k; apply sorted_reverse_stable|].
  unfold Sneaker.last_sale, sale_key.
  split; [now intros x ->|].
  split; [now intros x v ->|reflexivity].
Qed.

Lemma trending_fill_witness :
  [rec_b; rec_c]
  = List.filter is_trending example_catalog ++
    take (Z.to_nat (2 - len (List.filter is_trending example_catalog)))
         (List.filter (untagged_id (List.filter is_trending example_catalog))
                      (sorted_reverse sale_key example_catalog)).
Proof.
  apply (proj1 (trending_fill example_catalog 2 ltac:(reflexivity))).
  reflexivity.
Defined.

(** C1, as the code has it. For a positive [limit] the selection has at
    most [limit] records; it is the head of the tagged list followed by
    records whose id no tagged record has; and when the ids of the catalog
    are pairwise distinct, so are the ids of the selection.  The selection
    exists whenever every record carries an id. *)
Theorem trending_bounded_unique :
  forall data limit,
    (0 < limit)%Z ->
    (Forall has_id data -> exists res, trending data limit = Ok res) /\
    (forall res, trending data limit = Ok res ->
       (len res <= limit)%Z /\
       (exists picked,
          res = take (Z.to_nat limit) (List.filter is_trending data) ++ picked /\
          Forall (fun p => untagged_id (List.filter is_trending data) p = true)
                 picked) /\
       (NoDup (Sneaker.id <$> data) -> NoDup (Sneaker.id <$> res))).
Proof.
  intros data limit Hpos. split; [apply trending_total|].
  intros res H. assert (H0 : (0 <= limit)%Z) by lia.
  split; [exact (trending_len data limit res H0 H)|]. split.
  - destruct (trending_shape _ _ _ H0 H) as (picked & Hres & Hun & _).
    now exists picked.
  - intros Hnd. exact (trending_nodup data limit res H0 Hnd H).
Qed.

Lemma trending_bounded_unique_witness :
  (len [rec_b; rec_c] <= 2)%Z /\ NoDup (Sneaker.id <$> [rec_b; rec_c]).
Proof.
  destruct (proj2 (trending_bounded_unique example_catalog 2 eq_refl)
              [rec_b; rec_c] eq_refl) as (Hlen & _ & Hnd).
  split; [exact Hlen|]. apply Hnd.
  apply (bool_decide_unpack _). reflexivity.
Defined.

(** C1 fails as stated: records that share an id are not reduced to the
    first one; both tagged twins are returned. *)
Lemma trending_keeps_twins :
  (0 < 2)%Z /\
  trending [twin_1; twin_2] 2 = Ok [twin_1; twin_2] /\
  Sneaker.id twin_1 = Sneaker.id twin_2 /\
  ~ NoDup (Sneaker.id <$> [twin_1; twin_2]).
Proof.
  repeat split.
  intros H. apply NoDup_cons in H as [H _]. apply H. left.
Qed.

(** ** Detail lookup *)

(** C8. [sneaker_detail] raises exactly when no record has the id, and
    what it raises is the 404 [HTTPException]; when some record has the id
    it returns the first such record of the sequence. *)
Theorem sneaker_detail_first_match :
  forall data sneaker_id,
    ((exists e, sneaker_detail data sneaker_id = Raise e) <->
     forall s, In s data -> Sneaker.id s <> Some sneaker_id) /\
    (forall e, sneaker_detail data sneaker_id = Raise e ->
               e = HTTPException 404 "Sneaker not found") /\
    ((exists s, In s data /\ Sneaker.id s = Some sneaker_id) ->
     exists pre s post,
       data = pre ++ s :: post /\
       (forall x, In x pre -> Sneaker.id x <> Some sneaker_id) /\
       Sneaker.id s = Some sneaker_id /\
       sneaker_detail data sneaker_id = Ok s).
Proof.
  intros data sneaker_id. split; [|split].
  - split.
    + intros [e He]. now apply sneaker_detail_raises in He.
    + intros Hno. destruct (sneaker_detail data sneaker_id) as [s|e] eqn:E;
        [|now exists e].
      apply sneaker_detail_returns in E as (pre & post & -> & _ & Hs).
      exfalso. apply (Hno s); [|assumption].
      apply in_or_app. right. now left.
  - intros e He. now apply sneaker_detail_raises in He.
  - intros (s & Hin & Hs).
    destruct (sneaker_detail data sneaker_id) as [s'|e] eqn:E.
    + apply sneaker_detail_returns in E as (pre & post & -> & Hpre & Hs').
      now exists pre, s', post.
    + apply sneaker_detail_raises in E as [_ Hno]. now destruct (Hno s Hin).
Qed.

Lemma sneaker_detail_first_match_witness :
  exists pre s post,
    sample_catalog = pre ++ s :: post /\
    (forall x, In x pre -> Sneaker.id x <> Some "yz350") /\
    Sneaker.id s = Some "yz350" /\
    sneaker_detail sample_catalog "yz350" = Ok s.
Proof.
  apply (proj2 (proj2 (sneaker_detail_first_match sample_catalog "yz350"))).
  exists sample_yeezy. split; [right; left|]; reflexivity.
Defined.

(** ** Loader *)

(** C10. Whatever the file system and the decoder do, [load_mock] returns:
    the empty list when opening or reading the file raises, the empty list
    when decoding raises, and the decoded list, as decoded, otherwise. *)
Theorem load_mock_never_raises :
  forall DATA_PATH open_read json_load,
    (exists data, load_mock DATA_PATH open_read json_load = Ok data) /\
    (forall e, open_read DATA_PATH = Raise e ->
               load_mock DATA_PATH open_read json_load = Ok []) /\
    (forall f e, open_read DATA_PATH = Ok f -> json_load f = Raise e ->
                 load_mock DATA_PATH open_read json_load = Ok []) /\
    (forall f data, open_read DATA_PATH = Ok f -> json_load f = Ok data ->
                    load_mock DATA_PATH open_read json_load = Ok data).
Proof.
  intros DATA_PATH open_read json_load. unfold load_mock. split; [|split; [|split]].
  - destruct (open_read DATA_PATH) as [f|e]; cbn; [|eauto].
    destruct (json_load f) as [data|e]; cbn; eauto.
  - now intros e ->.
  - intros f e -> H. cbn. now rewrite H.
  - intros f data -> H. cbn. now rewrite H.
Qed.

Lemma load_mock_never_raises_witness :
  load_mock "sneakers_mock.json" (fun path => Raise (OSError path))
            (fun _ => Raise JSONDecodeError) = Ok [] /\
  load_mock "sneakers_mock.json" (fun _ => Ok "[...]")
            (fun _ => Ok sample_catalog) = Ok sample_catalog.
Proof.
  split.
  - apply (proj1 (proj2 (load_mock_never_raises "sneakers_mock.json"
              (fun path => Raise (OSError path))
              (fun _ => Raise JSONDecodeError)))
             (OSError "sneakers_mock.json")).
    reflexivity.
  - apply (proj2 (proj2 (proj2 (load_mock_never_raises "sneakers_mock.json"
              (fun _ => Ok "[...]") (fun _ => Ok sample_catalog))))
             "[...]" sample_catalog); reflexivity.
Defined.

(** * Further properties *)

(** ** The criteria as a conjunction *)

(** The loop body is the conjunction of the seven criteria taken alone. *)
Lemma item_ok_all it q brand model min_price max_price release_from release_to :
  item_ok it q brand model min_price max_price release_from release_to
  = item_ok it q None None None None None None
    && item_ok it None brand None None None None None
    && item_ok it None None model None None None None
    && item_ok it None None None min_price None None None
    && item_ok it None None None None max_price None None
    && item_ok it None None None None None release_from None
    && item_ok it None None None None None None release_to.
Proof.
  unfold item_ok. cbv zeta. cbn [str_guard num_guard].
  repeat match goal with
         | |- context [if ?g then false else _] =>
             lazymatch g with
             | false => fail
             | _ => destruct g
             end
         end; reflexivity.
Qed.

Lemma filter_filter_andb {A} (p1 p2 : A -> bool) (l : list A) :
  List.filter p2 (List.filter p1 l) = List.filter (fun x => p1 x && p2 x) l.
Proof.
  induction l as [|x l IH]; [reflexivity|]. cbn [List.filter].
  destruct (p1 x); cbn [List.filter andb]; [|exact IH].
  destruct (p2 x); now rewrite IH.
Qed.

Lemma filter_twice items q1 b1 m1 lo1 hi1 f1 t1 q2 b2 m2 lo2 hi2 f2 t2 :
  filter_sneakers (filter_sneakers items q1 b1 m1 lo1 hi1 f1 t1)
    q2 b2 m2 lo2 hi2 f2 t2
  = List.filter (fun it => item_ok it q1 b1 m1 lo1 hi1 f1 t1
                           && item_ok it q2 b2 m2 lo2 hi2 f2 t2) items.
Proof. rewrite !filter_sneakers_filter. apply filter_filter_andb. Qed.

(** The conditions the criteria put on a record, read off the guards. *)
Lemma item_ok_prices it lo hi :
  item_ok it None None None (Some lo) (Some hi) None None = true <->
  exists v, Sneaker.last_sale it = Some v /\ (lo <= v)%Q /\ (v <= hi)%Q.
Proof.
  unfold item_ok. cbv zeta. cbn [str_guard num_guard].
  destruct (Sneaker.last_sale it) as [v|].
  - destruct (Qlt_bool v lo) eqn:E1, (Qlt_bool hi v) eqn:E2; split;
      try discriminate; try (intros _; exists v);
      try (intros (v' & [= <-] & H1 & H2));
      rewrite ?Qlt_bool_true, ?Qlt_bool_false in *;
      try (exfalso; eapply Qlt_not_le; eassumption); auto.
  - split; [discriminate|]. now intros (v & [=] & _).
Qed.

Lemma str_le_false (a b : string) : String.leb b a = true -> Str.lt a b = false.
Proof.
  unfold Str.lt, String.ltb, String.leb.
  rewrite (String.compare_antisym b a).
  destruct (String.compare a b); simpl; congruence.
Qed.

Lemma item_ok_dates it c1 from c2 to :
  item_ok it None None None None None (Some (String c1 from))
          (Some (String c2 to)) = true <->
  exists rd, Sneaker.releaseDate it = Some rd /\
             String.leb (String c1 from) rd = true /\
             String.leb rd (String c2 to) = true.
Proof.
  unfold item_ok. cbv zeta. cbn [str_guard num_guard].
  destruct (Sneaker.releaseDate it) as [rd|].
  - destruct (Str.lt rd (String c1 from)) eqn:E1,
             (Str.lt (String c2 to) rd) eqn:E2; split;
      try discriminate; try (intros _; exists rd; auto using str_lt_false);
      intros (rd' & [= <-] & H1 & H2);
      apply str_le_false in H1, H2; congruence.
  - split; [discriminate|]. now intros (v & [=] & _).
Qed.

Lemma item_ok_brand it c b :
  item_ok it None (Some (String c b)) None None None None None = true <->
  Str.lower (Sneaker.get (Sneaker.brand it) "") = Str.lower (String c b).
Proof.
  unfold item_ok. cbv zeta. cbn [str_guard num_guard]. unfold Str.eq.
  destruct (String.eqb_spec (Str.lower (Sneaker.get (Sneaker.brand it) ""))
              (Str.lower (String c b))) as [E|E]; cbn [negb]; split; intros H;
    try assumption; try reflexivity; try discriminate. now destruct E.
Qed.

Lemma item_ok_model it c m :
  item_ok it None None (Some (String c m)) None None None None
  = Str.contains (Str.lower (String c m))
                 (Str.lower (Sneaker.get (Sneaker.model it) "")).
Proof.
  unfold item_ok. cbv zeta. cbn [str_guard num_guard].
  now destruct (Str.contains _ _).
Qed.

(** ** What [trending] raises *)

Lemma subscript_id_raises d e :
  subscript_id d = Raise e -> e = KeyError "id" /\ Sneaker.id d = None.
Proof.
  unfold subscript_id. destruct (Sneaker.id d); [discriminate|].
  now intros [= <-].
Qed.

Lemma id_set_raises tagged e :
  id_set tagged = Raise e ->
  e = KeyError "id" /\ exists r, In r tagged /\ Sneaker.id r = None.
Proof.
  induction tagged as [|t tagged IH]; cbn; [discriminate|].
  destruct (subscript_id t) as [i|e'] eqn:Ei; cbn.
  - destruct (id_set tagged) as [ids|e'] eqn:Es; cbn; [discriminate|].
    intros [= <-]. destruct (IH eq_refl) as (-> & r & Hr & Hid).
    split; [reflexivity|]. exists r. split; [now right|assumption].
  - intros [= <-]. apply subscript_id_raises in Ei as [-> Hid].
    split; [reflexivity|]. exists t. split; [now left|assumption].
Qed.

Lemma id_set_missing tagged :
  (exists r, In r tagged /\ Sneaker.id r = None) ->
  id_set tagged = Raise (KeyError "id").
Proof.
  intros (r & Hr & Hid).
  destruct (id_set tagged) as [ids|e] eqn:E.
  - exfalso. revert ids E. induction tagged as [|t tagged IH]; [destruct Hr|].
    intros ids. cbn. unfold subscript_id.
    destruct Hr as [->|Hr]; [now rewrite Hid|].
    destruct (Sneaker.id t); [|discriminate]. cbn.
    destruct (id_set tagged) as [ids'|]; [|discriminate]. eauto.
  - now apply id_set_raises in E as [-> _].
Qed.

Lemma fill_raises ids limit remaining : forall tagged e,
  fill ids limit remaining tagged = Raise e ->
  e = KeyError "id" /\ exists r, In r remaining /\ Sneaker.id r = None.
Proof.
  induction remaining as [|item rest IH]; intros tagged e; cbn; [discriminate|].
  destruct (subscript_id item) as [i|e'] eqn:Ei; cbn.
  - destruct (len _ >=? limit)%Z; [discriminate|].
    intros H. destruct (IH _ _ H) as (-> & r & Hr & Hid).
    split; [reflexivity|]. exists r. split; [now right|assumption].
  - intros [= <-]. apply subscript_id_raises in Ei as [-> Hid].
    split; [reflexivity|]. exists item. split; [now left|assumption].
Qed.

Lemma trending_raises data limit e :
  trending data limit = Raise e ->
  e = KeyError "id" /\
  (len (List.filter is_trending data) < limit)%Z /\
  exists r, In r data /\ Sneaker.id r = None.
Proof.
  unfold trending.
  destruct (len _ <? limit)%Z eqn:E; [|discriminate].
  intros H. split; [|split; [lia|]].
  - destruct (id_set _) as [ids|e'] eqn:Es; cbn in H.
    + destruct (fill _ _ _ _) as [res|e'] eqn:Ef; cbn in H; [discriminate|].
      injection H as <-. now apply fill_raises in Ef.
    + injection H as <-. now apply id_set_raises in Es.
  - destruct (id_set _) as [ids|e'] eqn:Es; cbn in H.
    + destruct (fill _ _ _ _) as [res|e'] eqn:Ef; cbn in H; [discriminate|].
      apply fill_raises in Ef as (_ & r & Hr & Hid).
      exists r. split; [|assumption].
      rewrite <- list_elem_of_In in *. now rewrite sorted_reverse_perm in Hr.
    + apply id_set_raises in Es as (_ & r & Hr & Hid).
      exists r. split; [|assumption]. apply filter_In in Hr. tauto.
Qed.

Lemma trending_tagged_missing data limit :
  (len (List.filter is_trending data) < limit)%Z ->
  (exists r, In r data /\ is_trending r = true /\ Sneaker.id r = None) ->
  trending data limit = Raise (KeyError "id").
Proof.
  intros Hlt (r & Hr & Ht & Hid). unfold trending.
  destruct (len _ <? limit)%Z eqn:E; [|lia].
  rewrite id_set_missing; [reflexivity|].
  exists r. split; [|assumption]. apply filter_In. tauto.
Qed.

(** ** Limits that are not positive *)

Lemma trending_nonpositive data limit :
  (limit <= 0)%Z ->
  trending data limit = Ok (slice_to (List.filter is_trending data) limit).
Proof.
  intros H. apply trending_enough. unfold len. lia.
Qed.

(** ** Membership *)

Lemma slice_to_sublist {A} (l : list A) (n : Z) : sublist (slice_to l n) l.
Proof. unfold slice_to. destruct (0 <=? n)%Z; apply sublist_take. Qed.

Lemma trending_in_data data limit res r :
  trending data limit = Ok res -> In r res -> In r data.
Proof.
  intros H Hr.
  destruct (Z.lt_ge_cases (len (List.filter is_trending data)) limit) as [Hlt|Hge].
  - apply trending_short in H; [|assumption]. subst res.
    apply in_app_or in Hr as [Hr|Hr].
    + apply filter_In in Hr. tauto.
    + apply In_take, filter_In in Hr as [Hr _].
      rewrite <- list_elem_of_In in *. now rewrite sorted_reverse_perm in Hr.
  - rewrite trending_enough in H by assumption. injection H as <-.
    rewrite <- list_elem_of_In in Hr.
    pose proof (elem_of_sublist _ _ _ Hr (slice_to_sublist _ _)) as Hr'.
    apply list_elem_of_In, filter_In in Hr'. tauto.
Qed.

(** ** Lists split by a test *)

Lemma filter_partition {A} (p : A -> bool) (l : list A) :
  List.filter p l ++ List.filter (fun x => negb (p x)) l ≡ₚ l.
Proof.
  induction l as [|x l IH]; [reflexivity|]. cbn [List.filter].
  destruct (p x); cbn [negb app].
  - now rewrite IH.
  - rewrite <- Permutation_middle. now rewrite IH.
Qed.

Lemma filter_perm {A} (p : A -> bool) (l k : list A) :
  l ≡ₚ k -> List.filter p l ≡ₚ List.filter p k.
Proof.
  induction 1 as [|x l k _ IH|x y l|l k m _ IH1 _ IH2]; cbn [List.filter].
  - reflexivity.
  - destruct (p x); now rewrite IH.
  - destruct (p x), (p y); try reflexivity. apply Permutation_swap.
  - now rewrite IH1.
Qed.

Lemma filter_weaken {A} (p q : A -> bool) (l : list A) :
  (forall x, In x l -> p x = true -> q x = true) ->
  sublist (List.filter p l) (List.filter q l).
Proof.
  induction l as [|x l IH]; intros H; [constructor|]. cbn [List.filter].
  assert (Hl : sublist (List.filter p l) (List.filter q l)).
  { apply IH. intros y Hy. apply H. now right. }
  destruct (p x) eqn:Ep.
  - rewrite (H x (or_introl eq_refl) Ep). now constructor.
  - destruct (q x); [now constructor|assumption].
Qed.

Lemma filter_sorted {A} (R : A -> A -> Prop) (p : A -> bool) (l : list A) :
  StronglySorted R l -> StronglySorted R (List.filter p l).
Proof.
  induction 1 as [|x l Hl IH Hx]; cbn [List.filter]; [constructor|].
  destruct (p x); [|assumption]. constructor; [assumption|].
  apply List.Forall_forall. intros y Hy. apply filter_In in Hy as [Hy _].
  rewrite List.Forall_forall in Hx. now apply Hx.
Qed.

Lemma filter_lengths {A} (p : A -> bool) (l : list A) :
  (length (List.filter p l) + length (List.filter (fun x => negb (p x)) l)
   = length l)%nat.
Proof.
  rewrite <- length_app. apply Permutation_length, filter_partition.
Qed.

(** ** Tagged records and records of untagged id *)

(** A record of untagged id is not itself tagged, if it is in the catalog. *)
Lemma untagged_id_not_trending data x :
  In x data ->
  untagged_id (List.filter is_trending data) x = true ->
  is_trending x = false.
Proof.
  intros Hx Hu. destruct (is_trending x) eqn:E; [|reflexivity].
  exfalso. apply (untagged_id_spec _ _ Hu x); [|reflexivity].
  apply filter_In. tauto.
Qed.

(** With pairwise distinct ids, a record is found by its id. *)
Lemma unique_id_inj data x y :
  NoDup (Sneaker.id <$> data) ->
  In x data -> In y data -> Sneaker.id x = Sneaker.id y -> x = y.
Proof.
  induction data as [|z data IH]; intros Hnd Hx Hy E; [destruct Hx|].
  cbn in Hnd. apply NoDup_cons in Hnd as [Hz Hnd].
  destruct Hx as [->|Hx], Hy as [->|Hy]; [reflexivity| | |now apply IH].
  - exfalso. apply Hz. rewrite E. apply list_elem_of_fmap_2.
    now apply list_elem_of_In.
  - exfalso. apply Hz. rewrite <- E. apply list_elem_of_fmap_2.
    now apply list_elem_of_In.
Qed.

(** With pairwise distinct ids that are all present, the ids of untagged
    records are the untagged ids. *)
Lemma untagged_id_unique data x :
  NoDup (Sneaker.id <$> data) -> Forall has_id data -> In x data ->
  untagged_id (List.filter is_trending data) x = negb (is_trending x).
Proof.
  intros Hnd Hall Hx.
  destruct (untagged_id _ x) eqn:Eu.
  - now rewrite (untagged_id_not_trending data x Hx Eu).
  - destruct (is_trending x) eqn:Et; [reflexivity|]. exfalso.
    unfold untagged_id in Eu. rewrite List.Forall_forall in Hall.
    destruct (Hall x Hx) as [i Hi]. rewrite Hi in Eu.
    apply negb_false_iff, existsb_exists in Eu as (t & Ht & Hti).
    apply id_is_true in Hti. apply filter_In in Ht as [Ht Htt].
    assert (t = x) by (apply (unique_id_inj data); congruence).
    congruence.
Qed.

Lemma untagged_filter_unique data l :
  NoDup (Sneaker.id <$> data) -> Forall has_id data ->
  (forall x, In x l -> In x data) ->
  List.filter (untagged_id (List.filter is_trending data)) l
  = List.filter (fun x => negb (is_trending x)) l.
Proof.
  intros Hnd Hall Hl. induction l as [|x l IH]; [reflexivity|].
  cbn [List.filter]. rewrite (untagged_id_unique data x Hnd Hall).
  - rewrite IH; [reflexivity|]. intros y Hy. apply Hl. now right.
  - apply Hl. now left.
Qed.

Lemma sorted_in_data (data : list sneaker) x :
  In x (sorted_reverse sale_key data) -> In x data.
Proof.
  rewrite <- !list_elem_of_In. now rewrite sorted_reverse_perm.
Qed.

Lemma candidates_untagged data :
  sublist (candidates data)
          (List.filter (fun x => negb (is_trending x))
                       (sorted_reverse sale_key data)).
Proof.
  apply filter_weaken. intros x Hx Hu.
  apply sorted_in_data in Hx.
  now rewrite (untagged_id_not_trending data x Hx Hu).
Qed.

(** Tagged records and fill candidates together are within the catalog,
    counted with multiplicity. *)
Lemma selection_submseteq data picked :
  sublist picked (candidates data) ->
  List.filter is_trending data ++ picked ⊆+ data.
Proof.
  intros Hp.
  assert (H : List.filter is_trending data ++ picked ⊆+
              List.filter is_trending data ++
              List.filter (fun x => negb (is_trending x)) data).
  { apply submseteq_app; [reflexivity|].
    rewrite <- (filter_perm _ _ _ (sorted_reverse_perm sale_key data)).
    apply sublist_submseteq. etrans; [exact Hp|apply candidates_untagged]. }
  now rewrite filter_partition in H.
Qed.

Lemma trending_submseteq data limit res :
  trending data limit = Ok res -> res ⊆+ data.
Proof.
  intros H.
  destruct (Z.lt_ge_cases (len (List.filter is_trending data)) limit) as [Hlt|Hge].
  - apply trending_short in H; [|assumption]. subst res.
    apply selection_submseteq, sublist_take.
  - rewrite trending_enough in H by assumption. injection H as <-.
    apply sublist_submseteq. etrans; [apply slice_to_sublist|apply filter_sublist].
Qed.

(** ** The fill takes the best-selling candidates *)

Lemma candidates_sorted data :
  StronglySorted (desc sale_key) (candidates data).
Proof. apply filter_sorted, sorted_reverse_sorted. Qed.

Lemma take_best {A} (R : A -> A -> Prop) (l : list A) (n : nat) x y :
  StronglySorted R l -> In x (take n l) -> In y l -> ~ In y (take n l) ->
  R x y.
Proof.
  intros Hs Hx Hy Hny. rewrite <- (take_drop n l) in Hs, Hy.
  apply in_app_or in Hy as [Hy|Hy]; [contradiction|].
  apply (StronglySorted_app_1_elem_of _ _ _ _ _ Hs); now apply list_elem_of_In.
Qed.

Lemma trending_short_candidates data limit res :
  (len (List.filter is_trending data) < limit)%Z ->
  trending data limit = Ok res ->
  res = List.filter is_trending data ++
        take (Z.to_nat (limit - len (List.filter is_trending data)))
             (candidates data).
Proof. apply trending_short. Qed.

(** ** Catalogs with pairwise distinct ids *)

Lemma candidates_unique data :
  NoDup (Sneaker.id <$> data) -> Forall has_id data ->
  candidates data
  = List.filter (fun x => negb (is_trending x)) (sorted_reverse sale_key data).
Proof.
  intros Hnd Hall. apply untagged_filter_unique; [assumption..|].
  apply sorted_in_data.
Qed.

Lemma candidates_length data :
  NoDup (Sneaker.id <$> data) -> Forall has_id data ->
  (len (List.filter is_trending data) + len (candidates data) = len data)%Z.
Proof.
  intros Hnd Hall. rewrite candidates_unique by assumption. unfold len.
  rewrite (Permutation_length
             (filter_perm (fun x => negb (is_trending x)) _ _
                (sorted_reverse_perm sale_key data))).
  pose proof (filter_lengths is_trending data). lia.
Qed.

Lemma trending_unique_ids data limit :
  NoDup (Sneaker.id <$> data) -> Forall has_id data ->
  (len (List.filter is_trending data) < limit)%Z ->
  trending data limit
  = Ok (List.filter is_trending data ++
        take (Z.to_nat (limit - len (List.filter is_trending data)))
             (List.filter (fun x => negb (is_trending x))
                          (sorted_reverse sale_key data))).
Proof.
  intros Hnd Hall Hlt.
  destruct (trending_total data limit Hall) as [res Hres].
  rewrite Hres. f_equal.
  rewrite <- candidates_unique by assumption.
  now apply trending_short_candidates.
Qed.

(** ** Lookup by id in a catalog with pairwise distinct ids *)

Lemma sneaker_detail_unique data r i :
  NoDup (Sneaker.id <$> data) -> In r data -> Sneaker.id r = Some i ->
  sneaker_detail data i = Ok r.
Proof.
  intros Hnd Hr Hi. destruct (sneaker_detail data i) as [s|e] eqn:E.
  - apply sneaker_detail_returns in E as (pre & post & Hd & _ & Hs).
    f_equal. apply (unique_id_inj data); [assumption| |assumption|congruence].
    rewrite Hd. apply in_or_app. right. now left.
  - apply sneaker_detail_raises in E as [_ Hno]. now destruct (Hno r Hr).
Qed.

(** ** The empty catalog *)

Lemma trending_nil limit : trending [] limit = Ok [].
Proof.
  unfold trending. cbn [List.filter].
  destruct (len [] <? limit)%Z; cbn; unfold slice_to;
    destruct (0 <=? limit)%Z; now rewrite take_nil.
Qed.

Lemma load_mock_failed DATA_PATH open_read json_load :
  (exists e, open_read DATA_PATH = Raise e) \/
  (exists f e, open_read DATA_PATH = Ok f /\ json_load f = Raise e) ->
  load_mock DATA_PATH open_read json_load = Ok [].
Proof.
  unfold load_mock. intros [[e ->]|(f & e & -> & H)]; cbn; [reflexivity|].
  now rewrite H.
Qed.

Lemma stringify_id_spec d : id_stringified d (stringify_id d).
Proof.
  unfold id_stringified, stringify_id. split.
  - apply lookup_insert_eq.
  - intros k Hk. now apply lookup_insert_ne.
Qed.

Lemma stringify_id_idem d : stringify_id (stringify_id d) = stringify_id d.
Proof.
  unfold stringify_id. rewrite lookup_insert_eq. cbn [py_str].
  apply insert_insert_eq.
Qed.

Lemma set_if_truthy_lookup key v filt k :
  set_if_truthy key v filt !! k
  = if decide (k = key)
    then match v with
         | Some (String c s) => Some (String c s)
         | _ => filt !! k
         end
    else filt !! k.
Proof.
  unfold set_if_truthy. destruct v as [[|c s]|]; destruct (decide (k = key));
    subst; rewrite ?lookup_insert_eq, ?lookup_insert_ne by congruence;
    reflexivity.
Qed.

Lemma Forall2_stringified docs :
  Forall2 id_stringified docs (stringify_id <$> docs).
Proof.
  induction docs as [|d docs IH]; constructor; [apply stringify_id_spec|exact IH].
Qed.

(** ** Substrings *)

Lemma prefix_app (a s : string) :
  String.prefix a s = true <-> exists post, s = (a ++ post)%string.
Proof.
  revert s. induction a as [|c a IH]; intros s.
  - split; [intros _; now exists s|]. now destruct s.
  - destruct s as [|c' s]; cbn [String.prefix].
    + split; [discriminate|]. intros (post & H).
      rewrite append_cons in H. discriminate.
    + destruct (ascii_dec c c') as [<-|Hc].
      * rewrite IH. split; intros (post & H); exists post;
          rewrite append_cons in *; congruence.
      * split; [discriminate|]. intros (post & H).
        rewrite append_cons in H. congruence.
Qed.

(** [Str.contains] is Python's [in]: some part of [s] is [sub]. *)
Lemma contains_app (sub s : string) :
  Str.contains sub s = true <->
  exists pre post, s = (pre ++ sub ++ post)%string.
Proof.
  induction s as [|c s IH]; cbn [Str.contains].
  - rewrite orb_false_r, prefix_app. split.
    + intros (post & H). now exists "", post.
    + intros (pre & post & H). destruct pre as [|c pre].
      * now exists post.
      * rewrite append_cons in H. discriminate.
  - rewrite orb_true_iff, prefix_app, IH. split.
    + intros [(post & H)|(pre & post & H)].
      * now exists "", post.
      * exists (String c pre), post. rewrite append_cons. now rewrite H.
    + intros ([|c' pre] & post & H).
      * left. now exists post.
      * right. exists pre, post. rewrite append_cons in H. congruence.
Qed.

(** ** One criterion against the others *)

(** Splits the loop body into the criteria named by the right-hand sides. *)
Ltac ok_split :=
  unfold item_ok; cbv zeta; cbn [str_guard num_guard];
  repeat match goal with
         | |- context [if ?g then false else _] =>
             lazymatch g with
             | false => fail
             | _ => destruct g
             end
         end; reflexivity.

Lemma item_ok_split_q it q brand model min_price max_price release_from
    release_to :
  item_ok it q brand model min_price max_price release_from release_to
  = item_ok it None brand model min_price max_price release_from release_to
    && item_ok it q None None None None None None.
Proof. ok_split. Qed.

Lemma item_ok_split_brand it q brand model min_price max_price release_from
    release_to :
  item_ok it q brand model min_price max_price release_from release_to
  = item_ok it q None model min_price max_price release_from release_to
    && item_ok it None brand None None None None None.
Proof. ok_split. Qed.

Lemma item_ok_split_model it q brand model min_price max_price release_from
    release_to :
  item_ok it q brand model min_price max_price release_from release_to
  = item_ok it q brand None min_price max_price release_from release_to
    && item_ok it None None model None None None None.
Proof. ok_split. Qed.

Lemma item_ok_split_prices it q brand model min_price max_price release_from
    release_to :
  item_ok it q brand model min_price max_price release_from release_to
  = item_ok it q brand model None None release_from release_to
    && item_ok it None None None min_price max_price None None.
Proof. ok_split. Qed.

Lemma item_ok_split_dates it q brand model min_price max_price release_from
    release_to :
  item_ok it q brand model min_price max_price release_from release_to
  = item_ok it q brand model min_price max_price None None
    && item_ok it None None None None None release_from release_to.
Proof. ok_split. Qed.

(** Membership in the output, one criterion set aside. *)
Lemma in_filter_split items (p1 p2 p : sneaker -> bool) r :
  (forall it, p it = p1 it && p2 it) ->
  In r (List.filter p items) <-> In r (List.filter p1 items) /\ p2 r = true.
Proof.
  intros H. rewrite !filter_In, H, andb_true_iff. tauto.
Qed.

Lemma filter_none {A} (p : A -> bool) (l : list A) :
  (forall x, In x l -> p x = false) -> List.filter p l = [].
Proof.
  induction l as [|x l IH]; intros H; [reflexivity|]. cbn [List.filter].
  rewrite (H x (or_introl eq_refl)). apply IH. intros y Hy. apply H. now right.
Qed.

(** * Further properties: the filter *)

(** X1. Without criteria the filter returns its input unchanged, and so it
    does when every string criterion is the empty string. *)
Theorem filter_without_criteria :
  forall items,
    filter_sneakers items None None None None None None None = items /\
    filter_sneakers items (Some "") (Some "") (Some "") None None
      (Some "") (Some "") = items.
Proof.
  intros items. split; apply filter_sneakers_no_criteria.
Qed.

(** X2. The criteria are a conjunction: filtering by all of them at once
    is filtering by each of the seven alone, one after the other. *)
Theorem filter_criteria_in_sequence :
  forall items q brand model min_price max_price release_from release_to,
    filter_sneakers items q brand model min_price max_price
      release_from release_to
    = filter_sneakers
        (filter_sneakers
           (filter_sneakers
              (filter_sneakers
                 (filter_sneakers
                    (filter_sneakers
                       (filter_sneakers items q None None None None None None)
                       None brand None None None None None)
                    None None model None None None None)
                 None None None min_price None None None)
              None None None None max_price None None)
           None None None None None release_from None)
        None None None None None None release_to.
Proof.
  intros. rewrite !filter_sneakers_filter, !filter_filter_andb.
  apply filter_ext. intros it. rewrite item_ok_all, !andb_assoc. reflexivity.
Qed.

(** X3. Filtering twice by the same criteria changes nothing more, and two
    filters may be applied in either order. *)
Theorem filter_idempotent_commutes :
  forall items q1 b1 m1 lo1 hi1 f1 t1 q2 b2 m2 lo2 hi2 f2 t2,
    filter_sneakers (filter_sneakers items q1 b1 m1 lo1 hi1 f1 t1)
      q1 b1 m1 lo1 hi1 f1 t1
    = filter_sneakers items q1 b1 m1 lo1 hi1 f1 t1 /\
    filter_sneakers (filter_sneakers items q1 b1 m1 lo1 hi1 f1 t1)
      q2 b2 m2 lo2 hi2 f2 t2
    = filter_sneakers (filter_sneakers items q2 b2 m2 lo2 hi2 f2 t2)
        q1 b1 m1 lo1 hi1 f1 t1.
Proof.
  intros. rewrite !filter_twice. split.
  - rewrite filter_sneakers_filter. apply filter_ext. intros it.
    apply andb_diag.
  - apply filter_ext. intros it. apply andb_comm.
Qed.

(** X4. The filter works record by record: the output for two catalogs
    put end to end is the two outputs put end to end. *)
Theorem filter_concatenation :
  forall items1 items2 q brand model min_price max_price release_from
         release_to,
    filter_sneakers (items1 ++ items2) q brand model min_price max_price
      release_from release_to
    = filter_sneakers items1 q brand model min_price max_price
        release_from release_to ++
      filter_sneakers items2 q brand model min_price max_price
        release_from release_to.
Proof.
  intros. rewrite !filter_sneakers_filter. apply List.filter_app.
Qed.

(** X5. Both price bounds together keep exactly the records the other
    criteria keep whose [lastSale] is present and within the bounds; with
    the lower bound above the upper one nothing is kept. *)
Theorem filter_price_range_exact :
  forall items q brand model lo hi release_from release_to,
    (forall r,
       In r (filter_sneakers items q brand model (Some lo) (Some hi)
               release_from release_to) <->
       In r (filter_sneakers items q brand model None None
               release_from release_to) /\
       exists v, Sneaker.last_sale r = Some v /\ (lo <= v)%Q /\ (v <= hi)%Q) /\
    ((hi < lo)%Q ->
     filter_sneakers items q brand model (Some lo) (Some hi)
       release_from release_to = []).
Proof.
  intros.
  assert (Hin : forall r,
    In r (filter_sneakers items q brand model (Some lo) (Some hi)
            release_from release_to) <->
    In r (filter_sneakers items q brand model None None
            release_from release_to) /\
    exists v, Sneaker.last_sale r = Some v /\ (lo <= v)%Q /\ (v <= hi)%Q).
  { intros r. rewrite !filter_sneakers_filter, <- item_ok_prices.
    apply (in_filter_split items _
             (fun it => item_ok it None None None (Some lo) (Some hi) None None)).
    intros it. apply item_ok_split_prices. }
  split; [exact Hin|]. intros Hlt.
  destruct (filter_sneakers items q brand model (Some lo) (Some hi)
              release_from release_to) as [|r rest] eqn:E; [reflexivity|].
  exfalso. destruct (proj1 (Hin r) (or_introl eq_refl)) as (_ & v & _ & H1 & H2).
  apply (Qlt_not_le _ _ Hlt). now apply Qle_trans with v.
Qed.

Lemma filter_price_range_exact_witness :
  In rec_a (filter_sneakers example_catalog None None None
              (Some 60%Q) (Some 150%Q) None None) /\
  filter_sneakers example_catalog None None None
    (Some 150%Q) (Some 60%Q) None None = [].
Proof.
  destruct (filter_price_range_exact example_catalog None None None
              60%Q 150%Q None None) as [Hin _].
  destruct (filter_price_range_exact example_catalog None None None
              150%Q 60%Q None None) as [_ Hnone].
  split.
  - apply Hin. split; [left; reflexivity|].
    exists 100%Q. repeat split; discriminate.
  - apply Hnone. reflexivity.
Defined.

(** X6. Two release bounds that are not empty keep exactly the records the
    other criteria keep whose [releaseDate] is present and lies between
    them in the order of strings. *)
Theorem filter_release_range_exact :
  forall items q brand model min_price max_price from to r,
    from <> "" -> to <> "" ->
    (In r (filter_sneakers items q brand model min_price max_price
             (Some from) (Some to)) <->
     In r (filter_sneakers items q brand model min_price max_price
             None None) /\
     exists rd, Sneaker.releaseDate r = Some rd /\
                String.leb from rd = true /\ String.leb rd to = true).
Proof.
  intros items q brand model min_price max_price from to r Hf Ht.
  destruct from as [|c1 from]; [congruence|].
  destruct to as [|c2 to]; [congruence|].
  rewrite !filter_sneakers_filter, <- item_ok_dates.
  apply (in_filter_split items _
           (fun it => item_ok it None None None None None
                        (Some (String c1 from)) (Some (String c2 to)))).
  intros it. apply item_ok_split_dates.
Qed.

Lemma filter_release_range_exact_witness :
  In sample_aj1 (filter_sneakers sample_catalog None None None None None
                   (Some "2015-01-01") (Some "2015-12-31")).
Proof.
  apply (filter_release_range_exact sample_catalog None None None None None
           "2015-01-01" "2015-12-31" sample_aj1
           ltac:(discriminate) ltac:(discriminate)).
  split; [left; reflexivity|].
  exists "2015-05-30". repeat split.
Defined.

(** X7. A brand criterion that is not empty keeps exactly the records the
    other criteria keep whose brand, lower-cased, is the lower-cased
    criterion: the whole brand, not a part of it, and never a record
    without brand.  A model criterion that is not empty keeps those whose
    lower-cased model has the lower-cased criterion as a part. *)
Theorem filter_brand_model_exact :
  forall items q brand model min_price max_price release_from release_to r,
    (forall b, b <> "" ->
       (In r (filter_sneakers items q (Some b) model min_price max_price
                release_from release_to) <->
        In r (filter_sneakers items q None model min_price max_price
                release_from release_to) /\
        Str.lower (Sneaker.get (Sneaker.brand r) "") = Str.lower b)) /\
    (forall b, b <> "" -> Sneaker.brand r = None ->
       ~ In r (filter_sneakers items q (Some b) model min_price max_price
                 release_from release_to)) /\
    (forall m, m <> "" ->
       (In r (filter_sneakers items q brand (Some m) min_price max_price
                release_from release_to) <->
        In r (filter_sneakers items q brand None min_price max_price
                release_from release_to) /\
        exists pre post,
          Str.lower (Sneaker.get (Sneaker.model r) "")
          = (pre ++ Str.lower m ++ post)%string)).
Proof.
  intros.
  assert (Hb : forall b, b <> "" ->
    (In r (filter_sneakers items q (Some b) model min_price max_price
             release_from release_to) <->
     In r (filter_sneakers items q None model min_price max_price
             release_from release_to) /\
     Str.lower (Sneaker.get (Sneaker.brand r) "") = Str.lower b)).
  { intros [|c b] Hne; [congruence|].
    rewrite !filter_sneakers_filter, <- item_ok_brand.
    apply (in_filter_split items _
             (fun it => item_ok it None (Some (String c b)) None None None
                          None None)).
    intros it. apply item_ok_split_brand. }
  split; [exact Hb|]. split.
  - intros b Hne Hnone Hin. apply (Hb b Hne) in Hin as [_ Hl].
    rewrite Hnone in Hl. apply Hne, lower_empty. now rewrite <- Hl.
  - intros [|c m] Hne; [congruence|].
    rewrite !filter_sneakers_filter, <- contains_app, <- item_ok_model.
    apply (in_filter_split items _
             (fun it => item_ok it None None (Some (String c m)) None None
                          None None)).
    intros it. apply item_ok_split_model.
Qed.

Lemma filter_brand_model_exact_witness :
  In sample_nb550 (filter_sneakers sample_catalog None (Some "NEW BALANCE")
                     None None None None None) /\
  ~ In sample_nb550 (filter_sneakers sample_catalog None (Some "New")
                       None None None None None).
Proof.
  destruct (filter_brand_model_exact sample_catalog None None None None None
              None None sample_nb550) as (Hb & _ & _).
  split.
  - apply (Hb "NEW BALANCE" ltac:(discriminate)).
    split; [right; right; left; reflexivity|]. vm_compute. reflexivity.
  - intros Hin. apply (Hb "New" ltac:(discriminate)) in Hin as [_ Hl].
    vm_compute in Hl. discriminate Hl.
Defined.

(** X8. The brand and the model criterion are read only through
    [.lower()]: values with the same lower-case form give the same
    output. *)
Theorem filter_brand_model_case_insensitive :
  forall items q brand model min_price max_price release_from release_to
         s1 s2,
    Str.lower s1 = Str.lower s2 ->
    filter_sneakers items q (Some s1) model min_price max_price
      release_from release_to
    = filter_sneakers items q (Some s2) model min_price max_price
        release_from release_to /\
    filter_sneakers items q brand (Some s1) min_price max_price
      release_from release_to
    = filter_sneakers items q brand (Some s2) min_price max_price
        release_from release_to.
Proof.
  intros items q brand model min_price max_price release_from release_to
         s1 s2 E.
  rewrite !filter_sneakers_filter. split; apply filter_ext; intros it;
    unfold item_ok; cbv zeta.
  - now rewrite (str_guard_lower s1 s2
      (fun b => negb (Str.eq (Str.lower (Sneaker.get (Sneaker.brand it) "")) b))
      E).
  - now rewrite (str_guard_lower s1 s2
      (fun m => negb (Str.contains m
                        (Str.lower (Sneaker.get (Sneaker.model it) ""))))
      E).
Qed.

Lemma filter_brand_model_case_insensitive_witness :
  filter_sneakers sample_catalog None (Some "ADIDAS") None None None None None
  = filter_sneakers sample_catalog None (Some "Adidas") None None None None
      None /\
  filter_sneakers sample_catalog None None (Some "yEEZY") None None None None
  = filter_sneakers sample_catalog None None (Some "Yeezy") None None None
      None.
Proof.
  split.
  - apply (proj1 (filter_brand_model_case_insensitive sample_catalog None None
                    None None None None None "ADIDAS" "Adidas" eq_refl)).
  - apply (proj2 (filter_brand_model_case_insensitive sample_catalog None None
                    None None None None None "yEEZY" "Yeezy" eq_refl)).
Defined.

(** X9. A [q] that is not empty keeps exactly the records the other
    criteria keep in whose lower-cased [brand + " " + model + " " +
    colorway] the lower-cased [q] occurs as a part; the part may run
    across the blanks between the fields. *)
Theorem filter_q_exact :
  forall items q brand model min_price max_price release_from release_to r,
    q <> "" ->
    (In r (filter_sneakers items (Some q) brand model min_price max_price
             release_from release_to) <->
     In r (filter_sneakers items None brand model min_price max_price
             release_from release_to) /\
     exists pre post,
       Str.lower (search_text r) = (pre ++ Str.lower q ++ post)%string).
Proof.
  intros items q brand model min_price max_price release_from release_to r Hq.
  destruct q as [|c q]; [congruence|].
  rewrite !filter_sneakers_filter, <- contains_app, <- item_ok_only_q.
  apply (in_filter_split items _
           (fun it => item_ok it (Some (String c q)) None None None None
                        None None)).
  intros it. apply item_ok_split_q.
Qed.

Lemma filter_q_exact_witness :
  In sample_aj1 (filter_sneakers sample_catalog (Some "Nike Air") None None
                   None None None None).
Proof.
  apply (filter_q_exact sample_catalog "Nike Air" None None None None None
           None sample_aj1 ltac:(discriminate)).
  split; [left; reflexivity|].
  exists "", " jordan 1 chicago". reflexivity.
Defined.

(** * Further properties: trending *)

(** X10. [trending] raises nothing but [KeyError("id")], and only when
    fewer than [limit] records are tagged and some record of the catalog
    has no id; it does raise it when the tagged records are too few and
    one of them has no id. *)
Theorem trending_raises_only_missing_id :
  forall data limit,
    (forall e, trending data limit = Raise e ->
       e = KeyError "id" /\
       (len (List.filter is_trending data) < limit)%Z /\
       exists r, In r data /\ Sneaker.id r = None) /\
    ((len (List.filter is_trending data) < limit)%Z ->
     (exists r, In r data /\ is_trending r = true /\ Sneaker.id r = None) ->
     trending data limit = Raise (KeyError "id")).
Proof.
  intros data limit. split.
  - intros e. apply trending_raises.
  - apply trending_tagged_missing.
Qed.

Lemma trending_raises_only_missing_id_witness :
  trending [sample_anonymous; sample_aj1] 5 = Raise (KeyError "id").
Proof.
  apply (proj2 (trending_raises_only_missing_id
                  [sample_anonymous; sample_aj1] 5)).
  - reflexivity.
  - exists sample_anonymous. split; [left|split]; reflexivity.
Defined.

(** X11. A limit that is not positive never starts the fill: limit [0]
    gives the empty list, a negative limit gives the tagged records
    without their last [-limit] ones, whether or not records have ids. *)
Theorem trending_nonpositive_limit :
  forall data limit,
    (limit <= 0)%Z ->
    trending data limit
    = Ok (if (limit =? 0)%Z then []
          else take (length (List.filter is_trending data) - Z.to_nat (- limit))
                    (List.filter is_trending data)).
Proof.
  intros data limit H. rewrite trending_nonpositive by assumption.
  f_equal. unfold slice_to.
  destruct (limit =? 0)%Z eqn:E0.
  - apply Z.eqb_eq in E0 as ->. reflexivity.
  - apply Z.eqb_neq in E0. destruct (0 <=? limit)%Z eqn:E; [lia|reflexivity].
Qed.

Lemma trending_nonpositive_limit_witness :
  trending [twin_1; twin_2; sample_anonymous] (-2) = Ok [twin_1].
Proof.
  apply (trending_nonpositive_limit [twin_1; twin_2; sample_anonymous] (-2)).
  discriminate.
Defined.

(** X12. Whatever [trending] returns is within the catalog, counted with
    multiplicity: every returned record is a record of the catalog, and
    no entry of the catalog is returned more often than it occurs. *)
Theorem trending_within_catalog :
  forall data limit res,
    trending data limit = Ok res ->
    res ⊆+ data /\ forall r, In r res -> In r data.
Proof.
  intros data limit res H. split.
  - now apply trending_submseteq with limit.
  - intros r. now apply trending_in_data with limit.
Qed.

Lemma trending_within_catalog_witness :
  [rec_b; rec_c] ⊆+ example_catalog /\
  forall r, In r [rec_b; rec_c] -> In r example_catalog.
Proof.
  apply (trending_within_catalog example_catalog 2). reflexivity.
Defined.

(** X13. When the fill runs, the records it appends stand in descending
    order of [lastSale] (absent read as [0]), and they are the best
    sellers: no record of the catalog with an untagged id that was left
    out sold higher than an appended one. *)
Theorem trending_fill_best_selling :
  forall data limit res,
    (len (List.filter is_trending data) < limit)%Z ->
    trending data limit = Ok res ->
    exists picked,
      res = List.filter is_trending data ++ picked /\
      StronglySorted (desc sale_key) picked /\
      forall p r,
        In p picked -> In r data ->
        untagged_id (List.filter is_trending data) r = true ->
        ~ In r picked ->
        (sale_key r <= sale_key p)%Q.
Proof.
  intros data limit res Hlt H.
  apply trending_short_candidates in H; [|assumption].
  eexists. split; [exact H|]. split.
  - apply StronglySorted_app_1_l with
      (drop (Z.to_nat (limit - len (List.filter is_trending data)))
            (candidates data)).
    rewrite take_drop. apply candidates_sorted.
  - intros p r Hp Hr Hu Hnr.
    change (desc sale_key p r).
    eapply take_best; [apply candidates_sorted|exact Hp| |exact Hnr].
    apply filter_In. split; [|assumption].
    rewrite <- list_elem_of_In in *. now rewrite sorted_reverse_perm.
Qed.

Lemma trending_fill_best_selling_witness :
  exists picked,
    [rec_b; rec_c] = List.filter is_trending example_catalog ++ picked /\
    StronglySorted (desc sale_key) picked /\
    forall p r,
      In p picked -> In r example_catalog ->
      untagged_id (List.filter is_trending example_catalog) r = true ->
      ~ In r picked ->
      (sale_key r <= sale_key p)%Q.
Proof.
  apply (trending_fill_best_selling example_catalog 2); reflexivity.
Defined.

(** X14. A catalog of at most [limit] records, all with an id and no id
    twice, is returned whole: the tagged records in catalog order, then
    the others in descending order of [lastSale]. *)
Theorem trending_small_catalog :
  forall data limit,
    NoDup (Sneaker.id <$> data) ->
    Forall has_id data ->
    (len data <= limit)%Z ->
    trending data limit
    = Ok (List.filter is_trending data ++
          List.filter (fun x => negb (is_trending x))
                      (sorted_reverse sale_key data)) /\
    List.filter is_trending data ++
    List.filter (fun x => negb (is_trending x)) (sorted_reverse sale_key data)
    ≡ₚ data.
Proof.
  intros data limit Hnd Hall Hle. split.
  - pose proof (candidates_length data Hnd Hall) as Hlen.
    rewrite candidates_unique in Hlen by assumption.
    destruct (Z.lt_ge_cases (len (List.filter is_trending data)) limit)
      as [Hlt|Hge].
    + rewrite trending_unique_ids by assumption.
      rewrite take_ge; [reflexivity|]. unfold len in *. lia.
    + rewrite trending_enough by assumption.
      assert (Hnil : List.filter (fun x => negb (is_trending x))
                       (sorted_reverse sale_key data) = []).
      { apply length_zero_iff_nil. unfold len in *. lia. }
      rewrite Hnil, app_nil_r. f_equal. apply slice_to_short.
      unfold len in *. lia.
  - rewrite (filter_perm _ _ _ (sorted_reverse_perm sale_key data)).
    apply filter_partition.
Qed.

Lemma trending_small_catalog_witness :
  trending example_catalog 10 = Ok [rec_b; rec_c; rec_a].
Proof.
  apply (proj1 (trending_small_catalog example_catalog 10
                  ltac:(apply (bool_decide_unpack _); reflexivity)
                  ltac:(repeat constructor; eexists; reflexivity)
                  ltac:(discriminate))).
Defined.

(** X15. On a catalog whose records all have an id and no id twice,
    [trending] with a limit that is not negative returns exactly
    [min(limit, len(catalog))] records. *)
Theorem trending_exact_length :
  forall data limit,
    NoDup (Sneaker.id <$> data) ->
    Forall has_id data ->
    (0 <= limit)%Z ->
    exists res,
      trending data limit = Ok res /\ len res = Z.min limit (len data).
Proof.
  intros data limit Hnd Hall H0.
  pose proof (candidates_length data Hnd Hall) as Hlen.
  rewrite candidates_unique in Hlen by assumption.
  destruct (Z.lt_ge_cases (len (List.filter is_trending data)) limit)
    as [Hlt|Hge].
  - eexists. split; [now apply trending_unique_ids|].
    rewrite len_app. unfold len in *. rewrite length_take. lia.
  - eexists. split; [now apply trending_enough|].
    rewrite slice_to_take by assumption.
    unfold len in *. rewrite length_take. lia.
Qed.

Lemma trending_exact_length_witness :
  exists res, trending sample_catalog 2 = Ok res /\ len res = 2%Z.
Proof.
  apply (trending_exact_length sample_catalog 2
           ltac:(apply (bool_decide_unpack _); reflexivity)
           ltac:(repeat constructor; eexists; reflexivity)
           ltac:(discriminate)).
Defined.

(** * Further properties: lookup and routes *)

(** X16. In a catalog where no id occurs twice, [sneaker_detail] finds
    every record by its id. *)
Theorem sneaker_detail_finds_each_record :
  forall data r i,
    NoDup (Sneaker.id <$> data) ->
    In r data ->
    Sneaker.id r = Some i ->
    sneaker_detail data i = Ok r.
Proof.
  intros data r i. apply sneaker_detail_unique.
Qed.

Lemma sneaker_detail_finds_each_record_witness :
  sneaker_detail sample_catalog "nb550" = Ok sample_nb550.
Proof.
  apply (sneaker_detail_finds_each_record sample_catalog sample_nb550 "nb550"
           ltac:(apply (bool_decide_unpack _); reflexivity)).
  - right. right. left. reflexivity.
  - reflexivity.
Defined.

(** X17. In a catalog where no id occurs twice, every record that
    [trending] or [filter_sneakers] lists is the record [sneaker_detail]
    returns for its id. *)
Theorem listed_record_detail :
  forall data,
    NoDup (Sneaker.id <$> data) ->
    (forall limit res r i,
       trending data limit = Ok res -> In r res -> Sneaker.id r = Some i ->
       sneaker_detail data i = Ok r) /\
    (forall q brand model min_price max_price release_from release_to r i,
       In r (filter_sneakers data q brand model min_price max_price
               release_from release_to) ->
       Sneaker.id r = Some i ->
       sneaker_detail data i = Ok r).
Proof.
  intros data Hnd. split.
  - intros limit res r i H Hr Hi.
    apply sneaker_detail_unique; [assumption| |assumption].
    now apply trending_in_data with limit res.
  - intros q brand model min_price max_price release_from release_to r i Hr Hi.
    apply sneaker_detail_unique; [assumption| |assumption].
    rewrite filter_sneakers_filter in Hr. apply filter_In in Hr. tauto.
Qed.

Lemma listed_record_detail_witness :
  sneaker_detail example_catalog "c" = Ok rec_c.
Proof.
  apply (proj1 (listed_record_detail example_catalog
                  ltac:(apply (bool_decide_unpack _); reflexivity))
           2%Z [rec_b; rec_c] rec_c "c"); [reflexivity| |reflexivity].
  right. left. reflexivity.
Defined.

(** X18. When the catalog file cannot be opened or decoded, the search and
    the trending route answer with the empty list, for all parameters, and
    the detail route answers 404 for every id. *)
Theorem routes_on_failed_load :
  forall DATA_PATH open_read json_load,
    (exists e, open_read DATA_PATH = Raise e) \/
    (exists f e, open_read DATA_PATH = Ok f /\ json_load f = Raise e) ->
    (forall q brand model min_price max_price release_from release_to,
       route_search DATA_PATH open_read json_load q brand model min_price
         max_price release_from release_to = Ok []) /\
    (forall limit,
       route_trending DATA_PATH open_read json_load limit = Ok []) /\
    (forall sneaker_id,
       route_sneaker_detail DATA_PATH open_read json_load sneaker_id
       = Raise (HTTPException 404 "Sneaker not found")).
Proof.
  intros DATA_PATH open_read json_load Hfail.
  apply load_mock_failed in Hfail.
  unfold route_search, route_trending, route_sneaker_detail.
  rewrite Hfail. cbn. split; [reflexivity|]. split; [|reflexivity].
  intros limit. apply trending_nil.
Qed.

Lemma routes_on_failed_load_witness :
  route_trending "sneakers_mock.json" (fun path => Raise (OSError path))
    (fun _ => Ok sample_catalog) 10 = Ok [].
Proof.
  apply (proj1 (proj2 (routes_on_failed_load "sneakers_mock.json"
                         (fun path => Raise (OSError path))
                         (fun _ => Ok sample_catalog)
                         (or_introl (ex_intro _ (OSError "sneakers_mock.json")
                                       eq_refl))))).
Defined.

(** * Further properties: the document routes *)

(** X20. The query of [list_designs] and [list_alerts] has a key
    ["userId"] or ["sneakerId"] exactly for a parameter that is given and
    not empty, with that parameter as value, and no other key; an empty
    parameter queries as an absent one, so the routes answer alike. *)
Theorem list_query_filter :
  forall get_documents userId sneakerId,
    query_filter userId sneakerId !! "userId"
    = match userId with
      | Some (String c u) => Some (String c u)
      | _ => None
      end /\
    query_filter userId sneakerId !! "sneakerId"
    = match sneakerId with
      | Some (String c s) => Some (String c s)
      | _ => None
      end /\
    (forall k, k <> "userId" -> k <> "sneakerId" ->
               query_filter userId sneakerId !! k = None) /\
    list_designs get_documents (Some "") sneakerId
    = list_designs get_documents None sneakerId /\
    list_designs get_documents userId (Some "")
    = list_designs get_documents userId None /\
    list_alerts get_documents (Some "") sneakerId
    = list_alerts get_documents None sneakerId /\
    list_alerts get_documents userId (Some "")
    = list_alerts get_documents userId None.
Proof.
  intros get_documents userId sneakerId.
  unfold query_filter. cbv zeta.
  split; [|split; [|split]].
  - rewrite !set_if_truthy_lookup.
    destruct (decide ("userId" = "sneakerId")) as [|_]; [discriminate|].
    destruct (decide ("userId" = "userId")) as [_|]; [|congruence].
    now destruct userId as [[|c u]|].
  - rewrite !set_if_truthy_lookup.
    destruct (decide ("sneakerId" = "sneakerId")) as [_|]; [|congruence].
    destruct (decide ("sneakerId" = "userId")) as [|_]; [discriminate|].
    now destruct sneakerId as [[|c s]|].
  - intros k Hu Hs. rewrite !set_if_truthy_lookup.
    destruct (decide (k = "sneakerId")); [contradiction|].
    destruct (decide (k = "userId")); [contradiction|].
    apply lookup_empty.
  - destruct userId as [[|c u]|]; repeat split; reflexivity.
Qed.

(** X21. When the store answers, [list_designs] and [list_alerts] return
    its documents, as many and in its order, each with ["_id"] replaced by
    its text and every other key untouched; a document without ["_id"]
    gets the text ["None"], and replacing twice is replacing once.  When
    the store raises, so does the route. *)
Theorem list_documents_ids_stringified :
  forall get_documents userId sneakerId,
    (forall docs,
       get_documents "design" (query_filter userId sneakerId) = Ok docs ->
       exists res,
         list_designs get_documents userId sneakerId = Ok res /\
         Forall2 id_stringified docs res) /\
    (forall docs,
       get_documents "alert" (query_filter userId sneakerId) = Ok docs ->
       exists res,
         list_alerts get_documents userId sneakerId = Ok res /\
         Forall2 id_stringified docs res) /\
    (forall e,
       get_documents "design" (query_filter userId sneakerId) = Raise e ->
       list_designs get_documents userId sneakerId = Raise e) /\
    (forall e,
       get_documents "alert" (query_filter userId sneakerId) = Raise e ->
       list_alerts get_documents userId sneakerId = Raise e) /\
    (forall d d' : document,
       id_stringified d d' -> d !! "_id" = None ->
       d' !! "_id" = Some (VStr "None")) /\
    (forall d, stringify_id (stringify_id d) = stringify_id d).
Proof.
  intros get_documents userId sneakerId.
  unfold list_designs, list_alerts. cbv zeta.
  split; [|split; [|split; [|split; [|split]]]]; [| | | | |apply stringify_id_idem].
  - intros docs ->. cbn. eexists. split; [reflexivity|].
    apply Forall2_stringified.
  - intros docs ->. cbn. eexists. split; [reflexivity|].
    apply Forall2_stringified.
  - now intros e ->.
  - now intros e ->.
  - intros d d' [H _] Hnone. now rewrite H, Hnone.
Qed.

Lemma list_documents_ids_stringified_witness :
  exists res,
    list_designs sample_store (Some "u1") None = Ok res /\
    Forall2 id_stringified [stored_design; stored_draft] res.
Proof.
  apply (proj1 (list_documents_ids_stringified sample_store (Some "u1") None)).
  reflexivity.
Defined.

Example stringified_example :
  stringify_id stored_draft !! "_id" = Some (VStr "None") /\
  stringify_id stored_design !! "_id"
  = Some (VStr "65a1f0c2e4b0a1b2c3d4e5f6") /\
  stringify_id stored_design !! "name" = Some (VStr "Bred").
Proof. repeat split. Qed.
